(** * stockresearch: prompt catalogs, dispatcher and chart classifier

    A shallow embedding of the four research front ends
    ([FINAL_catch_trends_stream.py], [stock_and_sector_research.py],
    [stock_and_market_research.py], [ResearchEngine/stock_and_market_research.py])
    and of the chart classifier [UIpatternsfromimage.py].

    Python [str] values are byte strings here (UTF-8); every character the
    program inspects ([{], [}], ASCII letters) is a single byte, and the
    continuation bytes of longer characters are never one of them. *)

From stdpp Require Import gmap strings list fin_maps.
From Stdlib Require Import ZArith Ascii.

(** ** Fragments of the Python runtime the program relies on *)

Module Py.

(** Raised objects.  [Other] covers whatever a library raises; its flag
    says whether the class derives from [Exception] (a [KeyboardInterrupt]
    or [GeneratorExit] does not, and [except Exception] lets it through). *)
Inductive Exc :=
| KeyError (key : string)
| ValueError (msg : string)
| IndexError (msg : string)
| AttributeError (msg : string)
| TypeError (msg : string)
| Other (cls : string) (msg : string) (derives_Exception : bool).

Definition is_Exception (e : Exc) : bool :=
  match e with
  | Other _ _ b => b
  | _ => true
  end.

(** [repr] of a [str] key: exact for keys without quotes, backslashes and
    control characters, the only ones the catalogs contain. *)
Definition repr (s : string) : string := "'" +:+ s +:+ "'".

(** [str(e)]: a [KeyError] prints the [repr] of its key, the others their
    message. *)
Definition str (e : Exc) : string :=
  match e with
  | KeyError k => repr k
  | ValueError m | IndexError m | AttributeError m | TypeError m => m
  | Other _ m _ => m
  end.

(** Truth value of an optional string: [None] and [""] are false. *)
Definition truthy (v : option string) : bool :=
  match v with
  | Some (String _ _) => true
  | _ => false
  end.

(** [v if v else d] *)
Definition or_default (v : option string) (d : string) : string :=
  match v with
  | Some (String c s) => String c s
  | _ => d
  end.

Definition upper_ascii (c : ascii) : ascii :=
  let n := Ascii.N_of_ascii c in
  if ((97 <=? n) && (n <=? 122))%N then Ascii.ascii_of_N (n - 32) else c.

(** Upper-casing of the letters a-z alone.  This is what [str.upper]
    gives on ASCII text; it is not the builtin, which the dispatcher takes
    from its environment ([Dispatcher.str_upper]), and serves only to build
    concrete environments for ASCII tickers. *)
Fixpoint ascii_upper (s : string) : string :=
  match s with
  | EmptyString => EmptyString
  | String c s' => String (upper_ascii c) (ascii_upper s')
  end.

Definition nl : string := String (Ascii.ascii_of_N 10) EmptyString.

(** The double quote, for texts that contain one. *)
Definition dquote : string := String (Ascii.ascii_of_N 34) EmptyString.

(** [needle in hay] *)
Definition contains (needle hay : string) : Prop :=
  ∃ pre post, hay = pre +:+ needle +:+ post.

(** Values stored in the catalog dictionaries. *)
Inductive Val :=
| VStr (s : string)
| VInt (z : Z)
| VList (l : list string).

(** [v == name] for a [str] or [None] on the right. *)
Definition eq_str (v : Val) (name : option string) : bool :=
  match v, name with
  | VStr s, Some n => bool_decide (s = n)
  | _, _ => false
  end.

(** How a call ends.  [Beyond] marks a template outside the modelled
    fragment of [str.format]. *)
Inductive Outcome (A : Type) :=
| Ok (a : A)
| Raised (e : Exc)
| Beyond.
Arguments Ok {A} a.
Arguments Raised {A} e.
Arguments Beyond {A}.

#[global] Instance Outcome_ret : MRet Outcome := λ A a, Ok a.
#[global] Instance Outcome_bind : MBind Outcome := λ A B k m,
  match m with
  | Ok a => k a
  | Raised e => Raised e
  | Beyond => Beyond
  end.

Fixpoint has_prefix (p s : string) : bool :=
  match p, s with
  | EmptyString, _ => true
  | String a p', String b s' => bool_decide (a = b) && has_prefix p' s'
  | String _ _, EmptyString => false
  end.

(** [x in s] on two strings *)
Fixpoint substring_of (x s : string) : bool :=
  has_prefix x s ||
  match s with
  | EmptyString => false
  | String _ s' => substring_of x s'
  end.

End Py.

(** ** [str.format] with keyword arguments only

    The scanner follows CPython's [MarkupIterator]: literal text up to a
    brace, [{{] and [}}] as escapes, a lone [}] or a trailing [{] as a
    [ValueError], and a replacement field read up to its closing brace.
    Conversions ([!]), format specifications ([:]), attribute and index
    access ([.], [[]) and explicit positional indexes are outside the
    modelled fragment and reported as [MUnmodelled]; no catalog template
    uses them ([CatalogFacts.catalogs_templates_ok]). *)

Module Format.
Import Py.

Inductive Markup :=
| MLit (c : ascii)
| MField (name : string)
| MError (e : Exc)
| MUnmodelled.

Inductive Scan :=
| InLiteral
| AfterOpen
| AfterClose
| InField (name : string).

Definition is_digit (c : ascii) : bool :=
  let n := Ascii.N_of_ascii c in ((48 <=? n) && (n <=? 57))%N.

Fixpoint all_digits (s : string) : bool :=
  match s with
  | EmptyString => true
  | String c s' => is_digit c && all_digits s'
  end.

Definition close_field (name : string) : Markup :=
  match name with
  | EmptyString => MField EmptyString
  | _ => if all_digits name then MUnmodelled else MField name
  end.

Definition push (name : string) (c : ascii) : string :=
  name +:+ String c EmptyString.

Fixpoint markup (st : Scan) (tpl : string) : list Markup :=
  match tpl with
  | EmptyString =>
      match st with
      | InLiteral => []
      | AfterOpen => [MError (ValueError "Single '{' encountered in format string")]
      | AfterClose => [MError (ValueError "Single '}' encountered in format string")]
      | InField _ => [MError (ValueError "expected '}' before end of string")]
      end
  | String c rest =>
      match st with
      | InLiteral =>
          if bool_decide (c = "{"%char) then markup AfterOpen rest
          else if bool_decide (c = "}"%char) then markup AfterClose rest
          else MLit c :: markup InLiteral rest
      | AfterOpen =>
          if bool_decide (c = "{"%char) then MLit c :: markup InLiteral rest
          else if bool_decide (c = "}"%char) then close_field EmptyString :: markup InLiteral rest
          else if bool_decide (c = "!"%char) || bool_decide (c = ":"%char)
                  || bool_decide (c = "["%char) || bool_decide (c = "."%char)
               then [MUnmodelled]
          else markup (InField (String c EmptyString)) rest
      | AfterClose =>
          if bool_decide (c = "}"%char) then MLit c :: markup InLiteral rest
          else [MError (ValueError "Single '}' encountered in format string")]
      | InField name =>
          if bool_decide (c = "}"%char) then close_field name :: markup InLiteral rest
          else if bool_decide (c = "{"%char)
               then [MError (ValueError "unexpected '{' in field name")]
          else if bool_decide (c = "!"%char) || bool_decide (c = ":"%char)
                  || bool_decide (c = "["%char) || bool_decide (c = "."%char)
               then [MUnmodelled]
          else markup (InField (push name c)) rest
      end
  end.

Inductive Result :=
| Rendered (s : string)
| Raise (e : Exc)
| Unmodelled.

(** One output step per markup item, left to right; the first failure
    ends the rendering.  An empty field name is automatic numbering, and
    there are no positional arguments. *)
Fixpoint render (items : list Markup) (kwargs : gmap string string) : Result :=
  match items with
  | [] => Rendered EmptyString
  | MError e :: _ => Raise e
  | MUnmodelled :: _ => Unmodelled
  | MLit c :: items' =>
      match render items' kwargs with
      | Rendered s => Rendered (String c s)
      | r => r
      end
  | MField EmptyString :: _ =>
      Raise (IndexError "Replacement index 0 out of range for positional args tuple")
  | MField name :: items' =>
      match kwargs !! name with
      | None => Raise (KeyError name)
      | Some v =>
          match render items' kwargs with
          | Rendered s => Rendered (v +:+ s)
          | r => r
          end
      end
  end.

(** [format] called on the template with the map as keyword arguments *)
Definition format (tpl : string) (kwargs : gmap string string) : Result :=
  render (markup InLiteral tpl) kwargs.

(** The replacement-field names the scanner reads in a template. *)
Fixpoint fields (items : list Markup) : list string :=
  match items with
  | [] => []
  | MField name :: items' => name :: fields items'
  | _ :: items' => fields items'
  end.

Definition placeholders (tpl : string) : list string :=
  fields (markup InLiteral tpl).

End Format.
(** ** The analysis catalogs

    Each catalog is the module-level list [ANALYSES] of one front end, a
    list of dictionaries transcribed entry by entry, adjacent string
    literals kept apart as in the source. *)

(** [FINAL_catch_trends_stream.py], lines 15-81 *)
Module Final.
Import Py.

Definition ANALYSES : list (gmap string Val) := [
  {[ "id" := VStr "1";
     "name" := VStr "Real-Time stock sentiment";
     "prompt_template" := VStr (
        "Search X (Twitter) for the latest discussions about {stock} and analyze the sentiment. " +:+
        "Focus on actionable insights, not noise.");
     "params" := VList ["stock"] ]};
  {[ "id" := VStr "2";
     "name" := VStr "Analyze current discussions on X about emerging trends in sector";
     "prompt_template" := VStr "Sector: {sector} Focus: {capfocus} Identify trending stocks and catalysts.";
     "params" := VList ["sector"; "capfocus"] ]};
  {[ "id" := VStr "3";
     "name" := VStr "Track Smart Money and Influencer Moves";
     "prompt_template" := VStr "Search X for recent activity from notable investors regarding {sector}.";
     "params" := VList ["sector"] ]};
  {[ "id" := VStr "4";
     "name" := VStr "Identify Stocks with Viral Momentum";
     "prompt_template" := VStr "Search X for stocks gaining viral momentum for market cap {capfocus}.";
     "params" := VList ["capfocus"] ]};
  {[ "id" := VStr "5";
     "name" := VStr "Monitor Breaking News and Catalysts";
     "prompt_template" := VStr "Search X for breaking news and catalysts related to {stock} in the last 24 hours.";
     "params" := VList ["stock"] ]};
  {[ "id" := VStr "6";
     "name" := VStr "Gauge Retail vs. Institutional Sentiment";
     "prompt_template" := VStr "Analyze the difference between retail and institutional sentiment for {stock} based on X.";
     "params" := VList ["stock"] ]};
  {[ "id" := VStr "7";
     "name" := VStr "Detect Early Warning Signs and Red Flags";
     "prompt_template" := VStr "Search X for red flags, concerns, or negative sentiment about {stock}.";
     "params" := VList ["stock"] ]};
  {[ "id" := VStr "8";
     "name" := VStr "Create a Real-Time Watchlist Strategy";
     "prompt_template" := VStr "Help me build a system to monitor {sector} stocks for {capfocus} with {risk} risk.";
     "params" := VList ["capfocus"; "sector"; "risk"] ]}
].

End Final.

(** [stock_and_sector_research.py], lines 15-152 *)
Module Sector.
Import Py.

Definition ANALYSES : list (gmap string Val) := [
  {[ "id" := VStr "1";
     "name" := VStr "Real-Time stock sentiment";
     "prompt_template" := VStr (
        "Search X (Twitter) for the latest discussions about {stock} and analyze the sentiment. " +:+
        "Focus on actionable insights, not noise." +:+
        "Based on what you find, provide: " +:+
        "Overall sentiment (bullish/neutral/bearish) " +:+
        "Key themes and narratives emerging " +:+
        "Notable investors or analysts discussing it " +:+
        "Any breaking news or catalysts mentioned " +:+
        "Shift in sentiment compared to last week " +:+
        "Retail vs. institutional sentiment indicators " +:+
        "Hype level assessment (organic vs. pump) " +:+
        "Momentum prediction: Building or fading?");
     "params" := VList ["stock"] ]};
  {[ "id" := VStr "2";
     "name" := VStr "Analyze current discussions on X about emerging trends in sector";
     "prompt_template" := VStr (
        "Analyze current discussions on X about emerging trends in {sector}. " +:+
        "Sector: {sector} " +:+
        "Focus: {capfocus} " +:+
        "Identify: " +:+
        "1. What trends are gaining traction right now " +:+
        "2. Stocks being mentioned repeatedly " +:+
        "3. New products, technologies, or catalysts " +:+
        "4. Sentiment shift patterns " +:+
        "5. Early-stage companies getting attention " +:+
        "6. Comparison to mainstream media coverage (are we early?) " +:+
        "7. Key opinion leaders driving the narrative " +:+
        "8. Stocks positioned to benefit most " +:+
        "Show me what's trending NOW, not last quarter.");
     "required_params" := VList ["sector"; "capfocus"] ]};
  {[ "id" := VStr "3";
     "name" := VStr "Track Smart Money and Influencer Moves";
     "prompt_template" := VStr "Search X for recent activity from notable investors regarding {sector}.";
     "params" := VList ["sector"] ]};
  {[ "id" := VStr "4";
     "name" := VStr "Identify Stocks with Viral Momentum";
     "prompt_template" := VStr (
        "Search X for stocks that are gaining viral momentum right now. " +:+
        "Criteria: " +:+
        "- Sudden spike in mentions " +:+
        "- Increasing engagement on posts " +:+
        "- Multiple accounts discussing simultaneously " +:+
        "- Market cap: [your preference] " +:+
        "For each stock gaining traction, analyze: " +:+
        "1. Why it's trending (catalyst, news, hype?) " +:+
        "2. Quality of the narrative (substance vs. pump) " +:+
        "3. Who's driving the conversation " +:+
        "4. Fundamental backing (does it deserve attention?) " +:+
        "5. Risk of being too late " +:+
        "6. Historical pattern (does viral = gains for this stock?) " +:+
        "7. Entry/exit strategy if momentum is real " +:+
        "8. Red flags suggesting pump and dump " +:+
        "Separate real opportunities from noise.");
     "required_params" := VList [] ]};
  {[ "id" := VStr "5";
     "name" := VStr "Monitor Breaking News and Catalysts";
     "prompt_template" := VStr "Search X for breaking news and catalysts related to {stock} in the last 24 hours.";
     "params" := VList ["stock"] ]};
  {[ "id" := VStr "6";
     "name" := VStr "Gauge Retail vs. Institutional Sentiment";
     "prompt_template" := VStr "Analyze the difference between retail and institutional sentiment for {stock} based on X.";
     "params" := VList ["stock"] ]};
  {[ "id" := VStr "7";
     "name" := VStr "Detect Early Warning Signs and Red Flags";
     "prompt_template" := VStr "Search X for red flags, concerns, or negative sentiment about {stock}.";
     "params" := VList ["stock"] ]};
  {[ "id" := VStr "8";
     "name" := VStr "Create a Real-Time Watchlist Strategy";
     "prompt_template" := VStr (
        "Help me build a system to monitor stocks on X for trading opportunities. " +:+
        "My focus: day trading " +:+
        "Sectors: {sector} " +:+
        "Risk tolerance: {risk} " +:+
        "Create a framework for: " +:+
        "1. Which accounts and hashtags to monitor daily " +:+
        "2. Sentiment indicators that signal buy/sell " +:+
        "3. How to filter noise from actionable signals " +:+
        "4. Tools and search strategies for X " +:+
        "5. How to validate X sentiment with fundamentals " +:+
        "6. Entry and exit triggers based on momentum " +:+
        "7. Risk management when trading on sentiment " +:+
        "8. Daily routine to stay ahead of the market " +:+
        "Make it systematic and repeatable.");
     "required_params" := VList ["sector"; "risk"] ]};
  {[ "id" := VInt 9;
     "name" := VStr "Recent Activity by Sector";
     "prompt_template" := VStr (
        "Search X for recent activity from notable investors and analysts regarding {sector} " +:+
        "Focus on: " +:+
        "Prominent investors (e.g., [specific names if known]) " +:+
        "Verified analysts and researchers " +:+
        "Hedge fund managers with public presence " +:+
        "Analyze: " +:+
        "1. What stocks they're discussing or buying " +:+
        "2. Their thesis and reasoning " +:+
        "3. Timing of their posts (recent accumulation?) " +:+
        "4. Engagement and agreement from others " +:+
        "5. Contrarian vs. consensus views " +:+
        "6. Track record of their past calls " +:+
        "7. Any disclosed positions or conflicts " +:+
        "8. Should I follow this move? Why or why not? " +:+
        "Help me follow smart money in real-time.");
     "required_params" := VList ["sector"] ]}
].

End Sector.

(** [stock_and_market_research.py], lines 15-182 *)
Module Market.
Import Py.

Definition ANALYSES : list (gmap string Val) := [
  {[ "id" := VStr "1";
     "name" := VStr "Real-Time Sentiment Pulse";
     "prompt_template" := VStr (
        "Analyze X discussions about {stock} from the last 24–48 hours." +:+
        "Classify sentiment (bullish / neutral / bearish) and explain why sentiment is shifting.");
     "params" := VList ["stock"] ]};
  {[ "id" := VStr "2";
     "name" := VStr "Sudden Attention Spike Detector";
     "prompt_template" := VStr (
        "Find stocks that saw a sudden spike in mentions on X in the last 12 hours, excluding major news outlets. " +:+
        "Focus on organic chatter, not headlines.");
     "params" := VList [] ]};
  {[ "id" := VStr "3";
     "name" := VStr "Retail Before Institutions";
     "prompt_template" := VStr "Identify stocks where retail traders are accumulating before any analyst upgrades or institutional reports.";
     "params" := VList [] ]};
  {[ "id" := VStr "4";
     "name" := VStr "Narrative Change Tracker";
     "prompt_template" := VStr (
        "Track how the narrative around {stock} has changed over the last 30 days." +:+
        "What are people saying now that they weren’t saying before?");
     "params" := VList ["stock"] ]};
  {[ "id" := VStr "5";
     "name" := VStr "Influencer Accumulation Signal";
     "prompt_template" := VStr "Detect when respected traders, operators, or domain experts start mentioning a stock repeatedly without hyping it.";
     "params" := VList [] ]};
  {[ "id" := VStr "6";
     "name" := VStr "Bear-to-Bull Flip Alert";
     "prompt_template" := VStr (
        "Find stocks where historically bearish accounts recently turned neutral or bullish." +:+
        "Highlight exact language changes.");
     "params" := VList ["sector"; "risk"] ]};
  {[ "id" := VStr "7";
     "name" := VStr "Hidden Catalyst Discovery";
     "prompt_template" := VStr "Scan X for subtle mentions of upcoming catalysts (contracts, regulation changes, pilots, partnerships) that are not in mainstream news.";
     "params" := VList [] ]};
  {[ "id" := VStr "8";
     "name" := VStr "Insider Language Pattern Scan";
     "prompt_template" := VStr "Analyze posts from employees, ex-employees, or contractors casually referencing their companys momentum or workload.";
     "params" := VList [] ]};
  {[ "id" := VStr "9";
     "name" := VStr "Volume Without News";
     "prompt_template" := VStr (
        "Identify stocks with unusual trading volume today but no major news." +:+
        "Cross-check with X sentiment for possible early explanations.");
     "params" := VList [] ]};
  {[ "id" := VStr "10";
     "name" := VStr "Sector Rotation Early Signal";
     "prompt_template" := VStr (
        "Detect early chatter suggesting capital rotating into a specific sector before ETFs or analysts mention it." +:+
        "Rotations start on X, not Bloomberg.");
     "params" := VList [] ]};
  {[ "id" := VStr "11";
     "name" := VStr "Earnings Whisper Analysis";
     "prompt_template" := VStr "Analyze pre-earnings discussions on X to extract ‘whisper numbers’ and expectations versus consensus.";
     "params" := VList [] ]};
  {[ "id" := VStr "12";
     "name" := VStr "Crowded Trade Exit Signal";
     "prompt_template" := VStr "Find stocks where bullish sentiment is becoming repetitive, meme-like, or overly confident.";
     "params" := VList ["sector"; "risk"] ]};
  {[ "id" := VStr "13";
     "name" := VStr "Small-Cap Smart Money Trail";
     "prompt_template" := VStr "Identify small-cap stocks being discussed by hedge fund analysts, ex-bankers, or finance PhDs on X.";
     "params" := VList [] ]};
  {[ "id" := VStr "14";
     "name" := VStr "Fear Compression Scan";
     "prompt_template" := VStr "Find stocks where fear-driven language is declining even though price hasn’t moved yet.";
     "params" := VList [] ]};
  {[ "id" := VStr "15";
     "name" := VStr "Macro-to-Micro Translation";
     "prompt_template" := VStr "Translate current macro events into specific stocks that might benefit before the connection becomes obvious.";
     "params" := VList [] ]};
  {[ "id" := VStr "16";
     "name" := VStr "Management Credibility Signal";
     "prompt_template" := VStr "Analyze CEO or CFO posts for changes in tone, confidence, or specificity over time.";
     "params" := VList [] ]};
  {[ "id" := VStr "17";
     "name" := VStr "Early Meme Formation Detector";
     "prompt_template" := VStr "Identify stocks transitioning from serious discussion to early meme language but still low market cap.";
     "params" := VList [] ]};
  {[ "id" := VStr "18";
     "name" := VStr "Regulatory Tailwind Radar";
     "prompt_template" := VStr "Scan policy, legal, or regulatory discussions on X that could quietly favor specific companies.";
     "params" := VList [] ]};
  {[ "id" := VStr "19";
     "name" := VStr "Global Edge Finder";
     "prompt_template" := VStr "Track non-US accounts discussing US stocks before US traders notice.";
     "params" := VList [] ]};
  {[ "id" := VStr "20";
     "name" := VStr "Future Price Path Simulation";
     "prompt_template" := VStr "Based on current sentiment, narratives, and catalysts, simulate 3 possible price paths for {stock}} over the next 3–6 months.";
     "params" := VList ["stock"] ]}
].

End Market.

(** [ResearchEngine/stock_and_market_research.py], lines 15-354 *)
Module ResearchEngine.
Import Py.

Definition ANALYSES : list (gmap string Val) := [
  {[ "id" := VStr "1";
     "name" := VStr "Real-Time stock sentiment";
     "prompt_template" := VStr (
        "Search X (Twitter) for the latest discussions about {stock} and analyze the sentiment. " +:+
        "Focus on actionable insights, not noise." +:+
        "Based on what you find, provide: " +:+
        "Overall sentiment (bullish/neutral/bearish) " +:+
        "Key themes and narratives emerging " +:+
        "Notable investors or analysts discussing it " +:+
        "Any breaking news or catalysts mentioned " +:+
        "Shift in sentiment compared to last week " +:+
        "Retail vs. institutional sentiment indicators " +:+
        "Hype level assessment (organic vs. pump) " +:+
        "Momentum prediction: Building or fading?");
     "params" := VList ["stock"] ]};
  {[ "id" := VStr "2";
     "name" := VStr "Sudden Attention Spike Detector";
     "prompt_template" := VStr (
        "Find stocks that saw a sudden spike in mentions on X in the last 12 hours, excluding major news outlets. " +:+
        "Focus on organic chatter, not headlines.");
     "params" := VList [] ]};
  {[ "id" := VStr "3";
     "name" := VStr "Retail Before Institutions";
     "prompt_template" := VStr "Identify stocks where retail traders are accumulating before any analyst upgrades or institutional reports.";
     "params" := VList [] ]};
  {[ "id" := VStr "4";
     "name" := VStr "Narrative Change Tracker";
     "prompt_template" := VStr (
        "Track how the narrative around {stock} has changed over the last 30 days." +:+
        "What are people saying now that they weren’t saying before?");
     "params" := VList ["stock"] ]};
  {[ "id" := VStr "5";
     "name" := VStr "Influencer Accumulation Signal";
     "prompt_template" := VStr "Detect when respected traders, operators, or domain experts start mentioning a stock repeatedly without hyping it.";
     "params" := VList [] ]};
  {[ "id" := VStr "6";
     "name" := VStr "Bear-to-Bull Flip Alert";
     "prompt_template" := VStr (
        "Find stocks where historically bearish accounts recently turned neutral or bullish." +:+
        "Highlight exact language changes.");
     "params" := VList ["sector"; "risk"] ]};
  {[ "id" := VStr "7";
     "name" := VStr "Hidden Catalyst Discovery";
     "prompt_template" := VStr "Scan X for subtle mentions of upcoming catalysts (contracts, regulation changes, pilots, partnerships) that are not in mainstream news.";
     "params" := VList [] ]};
  {[ "id" := VStr "8";
     "name" := VStr "Insider Language Pattern Scan";
     "prompt_template" := VStr "Analyze posts from employees, ex-employees, or contractors casually referencing their companys momentum or workload.";
     "params" := VList [] ]};
  {[ "id" := VStr "9";
     "name" := VStr "Volume Without News";
     "prompt_template" := VStr (
        "Identify stocks with unusual trading volume today but no major news." +:+
        "Cross-check with X sentiment for possible early explanations.");
     "params" := VList [] ]};
  {[ "id" := VStr "10";
     "name" := VStr "Sector Rotation Early Signal";
     "prompt_template" := VStr (
        "Detect early chatter suggesting capital rotating into a specific sector before ETFs or analysts mention it." +:+
        "Rotations start on X, not Bloomberg.");
     "params" := VList [] ]};
  {[ "id" := VStr "11";
     "name" := VStr "Earnings Whisper Analysis";
     "prompt_template" := VStr "Analyze pre-earnings discussions on X to extract ‘whisper numbers’ and expectations versus consensus.";
     "params" := VList [] ]};
  {[ "id" := VStr "12";
     "name" := VStr "Crowded Trade Exit Signal";
     "prompt_template" := VStr "Find stocks where bullish sentiment is becoming repetitive, meme-like, or overly confident.";
     "params" := VList [] ]};
  {[ "id" := VStr "13";
     "name" := VStr "Small-Cap Smart Money Trail";
     "prompt_template" := VStr "Identify small-cap stocks being discussed by hedge fund analysts, ex-bankers, or finance PhDs on X.";
     "params" := VList [] ]};
  {[ "id" := VStr "14";
     "name" := VStr "Fear Compression Scan";
     "prompt_template" := VStr "Find stocks where fear-driven language is declining even though price hasn’t moved yet.";
     "params" := VList [] ]};
  {[ "id" := VStr "15";
     "name" := VStr "Macro-to-Micro Translation";
     "prompt_template" := VStr "Translate current macro events into specific stocks that might benefit before the connection becomes obvious.";
     "params" := VList [] ]};
  {[ "id" := VStr "16";
     "name" := VStr "Management Credibility Signal";
     "prompt_template" := VStr "Analyze CEO or CFO posts for changes in tone, confidence, or specificity over time.";
     "params" := VList [] ]};
  {[ "id" := VStr "17";
     "name" := VStr "Early Meme Formation Detector";
     "prompt_template" := VStr "Identify stocks transitioning from serious discussion to early meme language but still low market cap.";
     "params" := VList [] ]};
  {[ "id" := VStr "18";
     "name" := VStr "Regulatory Tailwind Radar";
     "prompt_template" := VStr "Scan policy, legal, or regulatory discussions on X that could quietly favor specific companies.";
     "params" := VList [] ]};
  {[ "id" := VStr "19";
     "name" := VStr "Global Edge Finder";
     "prompt_template" := VStr "Track non-US accounts discussing US stocks before US traders notice.";
     "params" := VList [] ]};
  {[ "id" := VStr "20";
     "name" := VStr "Future Price Path Simulation";
     "prompt_template" := VStr "Based on current sentiment, narratives, and catalysts, simulate 3 possible price paths for {stock} over the next 3–6 months.";
     "params" := VList ["stock"] ]};
  {[ "id" := VStr "21";
     "name" := VStr "Analyze current discussions on X about emerging trends in sector";
     "prompt_template" := VStr (
        "Analyze current discussions on X about emerging trends in {sector}. " +:+
        "Sector: {sector} " +:+
        "Focus: {capfocus} " +:+
        "Identify: " +:+
        "1. What trends are gaining traction right now " +:+
        "2. Stocks being mentioned repeatedly " +:+
        "3. New products, technologies, or catalysts " +:+
        "4. Sentiment shift patterns " +:+
        "5. Early-stage companies getting attention " +:+
        "6. Comparison to mainstream media coverage (are we early?) " +:+
        "7. Key opinion leaders driving the narrative " +:+
        "8. Stocks positioned to benefit most " +:+
        "Show me what's trending NOW, not last quarter.");
     "params" := VList ["sector"; "capfocus"] ]};
  {[ "id" := VStr "22";
     "name" := VStr "Identify Stocks with Viral Momentum";
     "prompt_template" := VStr (
        "Search X for stocks that are gaining viral momentum right now. " +:+
        "Focus: {capfocus} " +:+
        "Criteria: " +:+
        "- Sudden spike in mentions " +:+
        "- Increasing engagement on posts " +:+
        "- Multiple accounts discussing simultaneously " +:+
        "- Market cap: [your preference] " +:+
        "For each stock gaining traction, analyze: " +:+
        "1. Why it's trending (catalyst, news, hype?) " +:+
        "2. Quality of the narrative (substance vs. pump) " +:+
        "3. Who's driving the conversation " +:+
        "4. Fundamental backing (does it deserve attention?) " +:+
        "5. Risk of being too late " +:+
        "6. Historical pattern (does viral = gains for this stock?) " +:+
        "7. Entry/exit strategy if momentum is real " +:+
        "8. Red flags suggesting pump and dump " +:+
        "Separate real opportunities from noise.");
     "params" := VList ["capfocus"] ]};
  {[ "id" := VStr "23";
     "name" := VStr "Monitor Breaking News and Catalysts";
     "prompt_template" := VStr (
        "Search X for breaking news and catalysts related to {stock} in the last 24 hours." +:+
        "Focus on actionable insights, not noise." +:+
        "Based on what you find, provide: " +:+
        "Overall sentiment (bullish/neutral/bearish) " +:+
        "Key themes and narratives emerging " +:+
        "Notable investors or analysts discussing it " +:+
        "Any breaking news or catalysts mentioned " +:+
        "Shift in sentiment compared to last week " +:+
        "Retail vs. institutional sentiment indicators " +:+
        "Hype level assessment (organic vs. pump) " +:+
        "Momentum prediction: Building or fading?");
     "params" := VList ["stock"] ]};
  {[ "id" := VStr "24";
     "name" := VStr "Gauge Retail vs. Institutional Sentiment";
     "prompt_template" := VStr "Analyze the difference between retail and institutional sentiment for {stock} based on X.";
     "params" := VList ["stock"] ]};
  {[ "id" := VStr "25";
     "name" := VStr "Detect Early Warning Signs and Red Flags";
     "prompt_template" := VStr "Search X for red flags, concerns, or negative sentiment about {stock}.";
     "params" := VList ["stock"] ]};
  {[ "id" := VStr "26";
     "name" := VStr "Create a Real-Time Watchlist Strategy";
     "prompt_template" := VStr (
        "Help me build a system to monitor stocks on X for trading opportunities. " +:+
        "My focus: day trading " +:+
        "Sectors: {sector} " +:+
        "Risk tolerance: {risk} " +:+
        "Focus: {capfocus} " +:+
        "Create a framework for: " +:+
        "1. Which accounts and hashtags to monitor daily " +:+
        "2. Sentiment indicators that signal buy/sell " +:+
        "3. How to filter noise from actionable signals " +:+
        "4. Tools and search strategies for X " +:+
        "5. How to validate X sentiment with fundamentals " +:+
        "6. Entry and exit triggers based on momentum " +:+
        "7. Risk management when trading on sentiment " +:+
        "8. Daily routine to stay ahead of the market " +:+
        "Make it systematic and repeatable.");
     "params" := VList ["sector"; "risk"; "capfocus"] ]};
  {[ "id" := VInt 27;
     "name" := VStr "Recent Activity by Sector";
     "prompt_template" := VStr (
        "Search X for recent activity from notable investors and analysts regarding {sector} " +:+
        "Focus on: " +:+
        "Prominent investors (e.g., [specific names if known]) " +:+
        "Verified analysts and researchers " +:+
        "Hedge fund managers with public presence " +:+
        "Analyze: " +:+
        "1. What stocks they're discussing or buying " +:+
        "2. Their thesis and reasoning " +:+
        "3. Timing of their posts (recent accumulation?) " +:+
        "4. Engagement and agreement from others " +:+
        "5. Contrarian vs. consensus views " +:+
        "6. Track record of their past calls " +:+
        "7. Any disclosed positions or conflicts " +:+
        "8. Should I follow this move? Why or why not? " +:+
        "Help me follow smart money in real-time.");
     "params" := VList ["sector"] ]};
  {[ "id" := VInt 28;
     "name" := VStr "Why is this stock moving";
     "prompt_template" := VStr (
        "Analyze the main drivers behind {stock}'s price action since [specific time/date or 'market open today']. Focus especially on:" +:+
        "Categorize and roughly weight the drivers as:" +:+
        "Fundamental news / earnings surprise / guidance change (weight %)" +:+
        "Analyst upgrades/downgrades / price target changes" +:+
        "Technical / momentum factors" +:+
        "Macro / interest rate / commodity / FX crossover effects" +:+
        "Sentiment / flow / positioning (institutional, retail, options gamma)" +:+
        "Idiosyncratic (M&A rumor, legal, product launch, etc.)" +:+
        "End with your best judgment of whether the current move looks sustainable or likely to reverse in the short term, and why.");
     "params" := VList ["stock"] ]};
  {[ "id" := VStr "29";
     "name" := VStr "Generate a Real-Time Watchlist by Risk Level for Stocks Under $10";
     "prompt_template" := VStr (
        "Search X and use web search to create a real-time watchlist of stocks currently trading under $10 that are suitable for day trading or short-term momentum plays. " +:+
        "Focus on low-priced stocks (under $10/share) with potential for volatility, volume spikes, or emerging buzz. " +:+
        "Use up-to-date market information as of today. " +:+
        "Prioritize stocks that show: " +:+
        "- High relative volume or unusual volume surges " +:+
        "- Recent price momentum (e.g., big % moves in the last 1 to 5 days) " +:+
        "- Positive chatter, catalysts, or hype on X/Twitter, Reddit, or financial news " +:+
        "Only include stocks where the key risk level matches the user's risk tolerance: {risk} (e.g., if {risk} is 'medium', filter for medium-risk stocks only). " +:+
        "Define risk levels as: Low (stable with low volatility), Medium (moderate volatility and some uncertainty), High (high volatility, speculative, or significant downside potential). " +:+
        "For each stock in the watchlist (aim for 8 to 15 tickers that fit the risk filter), include: " +:+
        "1. Ticker symbol and company name " +:+
        "2. Current price (approximate, under $10) " +:+
        "3. Today's % change and volume vs average " +:+
        "4. Why it's on the watchlist (e.g., recent catalyst, X mentions, sector heat, technical breakout) " +:+
        "5. Key risk level (must match {risk}) " +:+
        "6. Suggested watch levels (e.g., breakout above X, support at Y) " +:+
        "Structure the output as a clean markdown table or bulleted list for easy scanning. " +:+
        "At the end, explain your screening criteria and any sources/tools you used to compile this real-time list. " +:+
        "Remind that this is not financial advice — always do your own due diligence, use level 2/data, and manage risk tightly on sub-$10 names.");
     "params" := VList ["risk"] ]}
].

End ResearchEngine.

(** ** The dispatcher: [perform_analysis] and [update_visibility]

    The function bodies are the same text in the four front ends; only the
    module-level [ANALYSES] differs, so the catalog is an argument. *)

Module Dispatcher.
Import Py Format.

Inductive Role := System | User.

(** What a run does that is visible outside: values handed to the
    consumer and calls into the xAI SDK. *)
Inductive Event :=
| Yield (s : string)
| ClientNew (api_key : string) (timeout : Z)
| ChatCreate (model : string) (tools : list string)
| ChatAppend (r : Role) (text : string)
| ChatStream (messages : list (Role * string)).

(** The response stream of [chat.stream()]: the [content] of each chunk,
    until the provider ends the stream or the iteration raises. *)
Inductive Stream :=
| StreamEnd
| StreamChunk (content : string) (rest : Stream)
| StreamRaise (e : Exc).

(** The SDK as seen by the program: whether each call raises, and the
    stream a conversation gets. *)
Record Service := {
  client_new : string → Z → option Exc;
  chat_create : string → list string → option Exc;
  chat_append : Role → string → option Exc;
  chat_stream : list (Role * string) → Stream
}.

Record Env := {
  xai_api_key : option string;          (* os.getenv('XAI_API_KEY') *)
  service : Service;
  format_exc : Exc → string;            (* traceback.format_exc() in the handler *)
  str_upper : string → string           (* the builtin str.upper *)
}.

(** A generator run: what it did, in order, and how it ended. *)
Record M (A : Type) := Run { trace : list Event; outcome : Outcome A }.
Arguments Run {A} trace outcome.
Arguments trace {A} _.
Arguments outcome {A} _.

#[global] Instance M_ret : MRet M := λ A a, Run [] (Ok a).
#[global] Instance M_bind : MBind M := λ A B k m,
  match outcome m with
  | Ok a => Run (trace m ++ trace (k a)) (outcome (k a))
  | Raised e => Run (trace m) (Raised e)
  | Beyond => Run (trace m) Beyond
  end.

Definition raise {A} (e : Exc) : M A := Run [] (Raised e).
Definition emit (ev : Event) : M unit := Run [ev] (Ok tt).

(** A library call: recorded, then it returns or raises. *)
Definition call (ev : Event) (r : option Exc) : M unit :=
  Run [ev] (match r with Some e => Raised e | None => Ok tt end).

(** [try: body except Exception as e: handler e] *)
Definition try_except {A} (body : M A) (handler : Exc → M A) : M A :=
  match outcome body with
  | Raised e =>
      if is_Exception e
      then Run (trace body ++ trace (handler e)) (outcome (handler e))
      else body
  | _ => body
  end.

Definition yields {A} (m : M A) : list string :=
  omap (λ ev, match ev with Yield s => Some s | _ => None end) (trace m).

Definition service_calls {A} (m : M A) : list Event :=
  omap (λ ev, match ev with Yield _ => None | _ => Some ev end) (trace m).

(** [next((a for a in ANALYSES if a["name"] == analysis_name), None)] *)
Fixpoint find_selected (ANALYSES : list (gmap string Val))
    (analysis_name : option string) : M (option (gmap string Val)) :=
  match ANALYSES with
  | [] => mret None
  | a :: rest =>
      match a !! "name" with
      | None => raise (KeyError "name")
      | Some v =>
          if eq_str v analysis_name then mret (Some a)
          else find_selected rest analysis_name
      end
  end.

Definition format_params (env : Env)
    (stock sector capfocus risk_level : option string) : gmap string string :=
  {[ "stock" := match stock with
                | Some (String c s) => str_upper env (String c s)
                | _ => "N/A"
                end;
     "sector" := or_default sector "unspecified";
     "capfocus" := or_default capfocus "unspecified";
     "risk" := or_default risk_level "medium" ]}.

(** [selected["prompt_template"].format( **format_params)] *)
Definition render_prompt (selected : gmap string Val)
    (kwargs : gmap string string) : M string :=
  match selected !! "prompt_template" with
  | None => raise (KeyError "prompt_template")
  | Some (VStr tpl) =>
      match format tpl kwargs with
      | Rendered p => mret p
      | Raise e => raise e
      | Unmodelled => Run [] Beyond
      end
  | Some (VInt _) => raise (AttributeError "'int' object has no attribute 'format'")
  | Some (VList _) => raise (AttributeError "'list' object has no attribute 'format'")
  end.

Definition system_instruction : string :=
  "You are a senior equity analyst. Format your report for a clean display. " +:+
  "Use # for title, ## for sections, and Markdown TABLES for data comparison. " +:+
  "Bold ticker symbols like **$TSLA**.".

(** The loop over [chat.stream()] with its accumulator [full_text]. *)
Fixpoint consume (full_text : string) (s : Stream) : M unit :=
  match s with
  | StreamEnd => mret tt
  | StreamRaise e => raise e
  | StreamChunk content rest =>
      if truthy (Some content)
      then let full_text := full_text +:+ content in
           emit (Yield full_text);; consume full_text rest
      else consume full_text rest
  end.

(** Lines 101-122, the body of the [try]. *)
Definition try_body (env : Env) (api_key : string)
    (selected : gmap string Val) (kwargs : gmap string string) : M unit :=
  let svc := service env in
  call (ClientNew api_key 300) (client_new svc api_key 300);;
  prompt ← render_prompt selected kwargs;
  let model := "grok-4-1-fast-reasoning" in
  let tools := ["web_search"; "x_search"] in
  call (ChatCreate model tools) (chat_create svc model tools);;
  call (ChatAppend System system_instruction)
       (chat_append svc System system_instruction);;
  call (ChatAppend User prompt) (chat_append svc User prompt);;
  let messages := [(System, system_instruction); (User, prompt)] in
  emit (ChatStream messages);;
  consume "" (chat_stream svc messages).

Definition missing_key_message : string :=
  "### ⚠️ Error" +:+ nl +:+ "`XAI_API_KEY` not found in environment variables.".

Definition error_message (env : Env) (e : Exc) : string :=
  "### ❌ Error" +:+ nl +:+ str e +:+ nl +:+ nl +:+ "```" +:+ nl
    +:+ format_exc env e +:+ nl +:+ "```".

(** A complete run of the generator, driven until it is exhausted. *)
Definition perform_analysis (env : Env) (ANALYSES : list (gmap string Val))
    (analysis_name stock sector capfocus risk_level : option string) : M unit :=
  match xai_api_key env with
  | Some (String c k) =>
      selected ← find_selected ANALYSES analysis_name;
      match selected with
      | None => emit (Yield "Invalid Selection.")
      | Some selected =>
          let kwargs := format_params env stock sector capfocus risk_level in
          try_except (try_body env (String c k) selected kwargs)
                     (λ e, emit (Yield (error_message env e)))
      end
  | _ => emit (Yield missing_key_message)
  end.

(** The name test of the generator expression, over a whole catalog. *)
Definition in_catalog (ANALYSES : list (gmap string Val))
    (analysis_name : option string) : bool :=
  existsb (λ a, match a !! "name" with
                | Some v => eq_str v analysis_name
                | None => false
                end) ANALYSES.

Definition well_named (ANALYSES : list (gmap string Val)) : bool :=
  forallb (λ a, bool_decide (is_Some (a !! "name"))) ANALYSES.

(** The keys of the substitution map. *)
Definition fixed_keys : list string := ["stock"; "sector"; "capfocus"; "risk"].

(** Each value extends the one before it by a non-empty suffix. *)
Definition grows_by_suffix (prev next : string) : Prop :=
  ∃ suffix, suffix ≠ "" ∧ next = prev +:+ suffix.

Definition prefix_monotonic (ys : list string) : Prop :=
  ∀ i prev next, ys !! i = Some prev → ys !! S i = Some next →
    grows_by_suffix prev next.

(** The same stream, ended by the provider where the iteration raised. *)
Fixpoint until_failure (s : Stream) : Stream :=
  match s with
  | StreamEnd => StreamEnd
  | StreamChunk content rest => StreamChunk content (until_failure rest)
  | StreamRaise _ => StreamEnd
  end.

Definition with_streams_ending (env : Env) : Env :=
  {| xai_api_key := xai_api_key env;
     service := {| client_new := client_new (service env);
                   chat_create := chat_create (service env);
                   chat_append := chat_append (service env);
                   chat_stream := λ messages,
                     until_failure (chat_stream (service env) messages) |};
     format_exc := format_exc env;
     str_upper := str_upper env |}.

Definition stream_requests {A} (m : M A) : list (list (Role * string)) :=
  omap (λ ev, match ev with ChatStream messages => Some messages | _ => None end)
       (trace m).

(** [x in params] *)
Definition member (x : string) (params : Val) : M bool :=
  match params with
  | VList l => mret (bool_decide (x ∈ l))
  | VStr s => mret (substring_of x s)
  | VInt _ => raise (TypeError "argument of type 'int' is not iterable")
  end.

(** The four [gr.update(visible=...)] values, as their [visible] flags,
    in the order stock, sector, capfocus, risk. *)
Definition update_visibility (ANALYSES : list (gmap string Val))
    (choice : option string) : M (list bool) :=
  selected ← find_selected ANALYSES choice;
  params ← match selected with
           | Some selected =>
               match selected !! "params" with
               | Some v => mret v
               | None => raise (KeyError "params")
               end
           | None => mret (VList [])
           end;
  stock ← member "stock" params;
  sector ← member "sector" params;
  capfocus ← member "capfocus" params;
  risk ← member "risk" params;
  mret [stock; sector; capfocus; risk].

End Dispatcher.

(** ** The chart classifier, [UIpatternsfromimage.py] *)

Module Vision.
Import Py.

#[local] Unset Elimination Schemes.

(** What [json.loads] returns. *)
Inductive Json :=
| JNull
| JBool (b : bool)
| JInt (z : Z)
| JFloat (literal : string)
| JStr (s : string)
| JArr (items : list Json)
| JObj (fields : gmap string Json).

#[local] Set Elimination Schemes.

Definition type_name (v : Json) : string :=
  match v with
  | JNull => "NoneType"
  | JBool _ => "bool"
  | JInt _ => "int"
  | JFloat _ => "float"
  | JStr _ => "str"
  | JArr _ => "list"
  | JObj _ => "dict"
  end.

(** [key in v] *)
Definition json_in (key : string) (v : Json) : Outcome bool :=
  match v with
  | JObj fields => Ok (bool_decide (is_Some (fields !! key)))
  | JArr items =>
      Ok (existsb (λ x, match x with JStr s => bool_decide (s = key) | _ => false end) items)
  | JStr s => Ok (substring_of key s)
  | _ => Raised (TypeError ("argument of type '" +:+ type_name v +:+ "' is not iterable"))
  end.

(** [v[key]] *)
Definition json_getitem (v : Json) (key : string) : Outcome Json :=
  match v with
  | JObj fields =>
      match fields !! key with
      | Some x => Ok x
      | None => Raised (KeyError key)
      end
  | JArr _ => Raised (TypeError "list indices must be integers or slices, not str")
  | JStr _ => Raised (TypeError "string indices must be integers, not 'str'")
  | _ => Raised (TypeError ("'" +:+ type_name v +:+ "' object is not subscriptable"))
  end.

(** [v.get(key, fallback)] *)
Definition json_get (v : Json) (key : string) (fallback : Json) : Outcome Json :=
  match v with
  | JObj fields => Ok (default fallback (fields !! key))
  | _ => Raised (AttributeError ("'" +:+ type_name v +:+ "' object has no attribute 'get'"))
  end.

Fixpoint chars (s : string) : list Json :=
  match s with
  | EmptyString => []
  | String c s' => JStr (String c EmptyString) :: chars s'
  end.

(** The items a [for] loop over [v] visits.  A dictionary yields its keys;
    their order is immaterial below, where every string item fails alike. *)
Definition json_iter (v : Json) : Outcome (list Json) :=
  match v with
  | JArr items => Ok items
  | JObj fields => Ok ((λ kv, JStr kv.1) <$> map_to_list fields)
  | JStr s => Ok (chars s)
  | _ => Raised (TypeError ("'" +:+ type_name v +:+ "' object is not iterable"))
  end.

(** The loop [for x in xs: f x], collecting what each round produces. *)
Fixpoint for_each {A B} (f : A → Outcome B) (xs : list A) : Outcome (list B) :=
  match xs with
  | [] => Ok []
  | x :: xs' => y ← f x; ys ← for_each f xs'; mret (y :: ys)
  end.

(** The coordinates handed to one [ax.plot([x1, x2], [y1, y2],
    linewidth=3)], as given in the reply. *)
Record Segment := { x1 : Json; x2 : Json; y1 : Json; y2 : Json }.

(** One round of the inner loop: the four subscripts, in the order the
    call evaluates them, then [ax.plot].  What matplotlib raises on the
    coordinates (a [ValueError] on a list, an [OverflowError] on an integer
    too large for a float), if anything, is given by [ax_plot]. *)
Definition plot_line (ax_plot : Segment → option Exc) (line : Json)
    : Outcome Segment :=
  a ← json_getitem line "x1";
  b ← json_getitem line "x2";
  c ← json_getitem line "y1";
  d ← json_getitem line "y2";
  let drawn := {| x1 := a; x2 := b; y1 := c; y2 := d |} in
  match ax_plot drawn with
  | Some e => Raised e
  | None => Ok drawn
  end.

Definition draw_pattern (ax_plot : Segment → option Exc) (pattern : Json)
    : Outcome (list Segment) :=
  trendlines ← json_get pattern "trendlines" (JArr []);
  lines ← json_iter trendlines;
  for_each (plot_line ax_plot) lines.

Section Classifier.
Variable Image : Type.

(** The figure rendered back to an image: the chart and the segments
    plotted over it, in plotting order. *)
Record Annotated := { chart : Image; segments : list Segment }.

Record Env := {
  (* client.chat.completions.create(...).choices[0].message.content *)
  completions_create : Image → Exc + option string;
  json_loads : string → Exc + Json;
  (* ax.plot of matplotlib: what it raises on a segment, if anything *)
  ax_plot : Segment → option Exc
}.

Definition analyze_chart_with_openai (env : Env) (image : option Image)
    : Outcome Json :=
  match image with
  | None => Raised (AttributeError "'NoneType' object has no attribute 'save'")
  | Some img =>
      match completions_create env img with
      | inl e => Raised e
      | inr None =>
          Raised (TypeError "the JSON object must be str, bytes or bytearray, not NoneType")
      | inr (Some content) =>
          match json_loads env content with
          | inl e => Raised e
          | inr v => Ok v
          end
      end
  end.

Definition draw_annotations (env : Env) (image : option Image)
    (analysis_json : Json) : Outcome Annotated :=
  match image with
  | None => Raised (TypeError "Image data of dtype object cannot be converted to float")
  | Some img =>
      has_patterns ← json_in "patterns" analysis_json;
      drawn ← (if has_patterns : bool
               then patterns ← json_getitem analysis_json "patterns";
                    items ← json_iter patterns;
                    per_pattern ← for_each (draw_pattern (ax_plot env)) items;
                    mret (concat per_pattern)
               else mret []);
      mret {| chart := img; segments := drawn |}
  end.

Definition process_image (env : Env) (image : option Image)
    : Outcome (Json * Annotated) :=
  analysis ← analyze_chart_with_openai env image;
  annotated_image ← draw_annotations env image analysis;
  explanation ← json_get analysis "analysis" (JStr "No analysis returned.");
  mret (explanation, annotated_image).

End Classifier.

Arguments chart {Image} _.
Arguments segments {Image} _.
Arguments completions_create {Image} _ _.
Arguments json_loads {Image} _ _.
Arguments ax_plot {Image} _ _.
Arguments analyze_chart_with_openai {Image} env image.
Arguments draw_annotations {Image} env image analysis_json.
Arguments process_image {Image} env image.

End Vision.

(** ** The four catalogs together *)

Definition catalogs : list (list (gmap string Py.Val)) :=
  [Final.ANALYSES; Sector.ANALYSES; Market.ANALYSES; ResearchEngine.ANALYSES].

(** ** Decidable checks run over the catalog entries *)

Module Check.
Import Py Format Dispatcher.

Definition is_unmodelled (m : Markup) : bool :=
  match m with MUnmodelled => true | _ => false end.

(** The template stays inside the modelled fragment of [str.format] and
    names no placeholder besides the four keys of the map. *)
Definition template_ok (tpl : string) : bool :=
  forallb (λ p, bool_decide (p ∈ fixed_keys)) (placeholders tpl)
  && negb (existsb is_unmodelled (markup InLiteral tpl)).

Definition entry_template_ok (a : gmap string Val) : bool :=
  match a !! "prompt_template" with
  | Some (VStr tpl) => template_ok tpl
  | _ => false
  end.

(** The [params] list and the placeholders of the template are the same
    set of names. *)
Definition params_match (a : gmap string Val) : bool :=
  match a !! "params", a !! "prompt_template" with
  | Some (VList params), Some (VStr tpl) =>
      forallb (λ p, bool_decide (p ∈ placeholders tpl)) params
      && forallb (λ p, bool_decide (p ∈ params)) (placeholders tpl)
  | _, _ => false
  end.

Definition name_of (a : gmap string Val) : option string :=
  match a !! "name" with
  | Some (VStr n) => Some n
  | _ => None
  end.

(** The names of the entries on which a check fails, in catalog order. *)
Definition failing (check : gmap string Val → bool)
    (ANALYSES : list (gmap string Val)) : list (option string) :=
  name_of <$> List.filter (λ a, negb (check a)) ANALYSES.

(** Selecting the entry by its name shows exactly the fields its
    [params] list names. *)
Definition visibility_ok (ANALYSES : list (gmap string Val))
    (a : gmap string Val) : bool :=
  match a !! "name", a !! "params" with
  | Some (VStr n), Some (VList params) =>
      match update_visibility ANALYSES (Some n) with
      | Run [] (Ok [stock; sector; capfocus; risk]) =>
          bool_decide (stock = bool_decide ("stock" ∈ params))
          && bool_decide (sector = bool_decide ("sector" ∈ params))
          && bool_decide (capfocus = bool_decide ("capfocus" ∈ params))
          && bool_decide (risk = bool_decide ("risk" ∈ params))
      | _ => false
      end
  | _, _ => false
  end.

End Check.

(** ** The Gradio wiring of the four front ends *)

Module Frontend.
Import Py Dispatcher.

(** [choices=[a["name"] for a in ANALYSES]] of the analysis dropdown *)
Fixpoint choices (ANALYSES : list (gmap string Val)) : M (list Val) :=
  match ANALYSES with
  | [] => mret []
  | a :: rest =>
      match a !! "name" with
      | None => raise (KeyError "name")
      | Some v => names ← choices rest; mret (v :: names)
      end
  end.

(** [value=ANALYSES[0]["name"]], the choice the dropdown starts with *)
Definition default_value (ANALYSES : list (gmap string Val)) : M Val :=
  match ANALYSES with
  | [] => raise (IndexError "list index out of range")
  | a :: _ =>
      match a !! "name" with
      | None => raise (KeyError "name")
      | Some v => mret v
      end
  end.

(** The [visible=] flags the inputs are created with, in the order of the
    [outputs] of the change handler: stock, sector, cap focus, risk. *)
Definition initial_visibility : list bool := [true; false; false; false].

End Frontend.

(** ** Vocabulary for statements about runs and replies *)

Module Observe.
Import Py Dispatcher.

(** The contents the loop appends: the non-empty ones, up to the end of
    the stream or the point where its iteration raises. *)
Fixpoint fragments (s : Stream) : list string :=
  match s with
  | StreamEnd => []
  | StreamRaise _ => []
  | StreamChunk content rest =>
      if truthy (Some content) then content :: fragments rest
      else fragments rest
  end.

Definition joined (parts : list string) : string :=
  foldr String.append "" parts.

(** What the iteration of a stream raises, if it does. *)
Fixpoint stream_failure (s : Stream) : option Exc :=
  match s with
  | StreamEnd => None
  | StreamRaise e => Some e
  | StreamChunk _ rest => stream_failure rest
  end.

(** Everything the SDK raises derives from [Exception]. *)
Definition only_exceptions (svc : Service) : Prop :=
  (∀ key timeout e, client_new svc key timeout = Some e → is_Exception e = true)
  ∧ (∀ model tools e, chat_create svc model tools = Some e → is_Exception e = true)
  ∧ (∀ role text e, chat_append svc role text = Some e → is_Exception e = true)
  ∧ (∀ messages e, stream_failure (chat_stream svc messages) = Some e →
       is_Exception e = true).

(** The calls of one request, in the order lines 101-119 make them. *)
Definition request_calls (api_key prompt : string) : list Event :=
  [ClientNew api_key 300;
   ChatCreate "grok-4-1-fast-reasoning" ["web_search"; "x_search"];
   ChatAppend System system_instruction;
   ChatAppend User prompt;
   ChatStream [(System, system_instruction); (User, prompt)]].

(** Whether the SDK raises on a call.  Asking for the stream does not
    raise by itself; what its iteration raises comes after the call. *)
Definition call_raises (svc : Service) (ev : Event) : bool :=
  match ev with
  | ClientNew key timeout => bool_decide (is_Some (client_new svc key timeout))
  | ChatCreate model tools => bool_decide (is_Some (chat_create svc model tools))
  | ChatAppend role text => bool_decide (is_Some (chat_append svc role text))
  | ChatStream _ => false
  | Yield _ => false
  end.

(** The calls of a list up to and including the first one that raises. *)
Fixpoint until_raise (svc : Service) (calls : list Event) : list Event :=
  match calls with
  | [] => []
  | ev :: rest =>
      if call_raises svc ev then [ev] else ev :: until_raise svc rest
  end.

(** The template scans without a syntax error, stays in the modelled
    fragment, and every field it names is one of the four keys. *)
Definition template_renders (tpl : string) : bool :=
  forallb (λ m, match m with
                | Format.MLit _ => true
                | Format.MField name => bool_decide (name ∈ fixed_keys)
                | _ => false
                end) (Format.markup Format.InLiteral tpl).

Definition entry_renders (a : gmap string Val) : bool :=
  match a !! "prompt_template" with
  | Some (VStr tpl) => template_renders tpl
  | _ => false
  end.

Definition names_distinct (ANALYSES : list (gmap string Val)) : Prop :=
  NoDup (Check.name_of <$> ANALYSES)
  ∧ Forall (λ a, is_Some (Check.name_of a)) ANALYSES.

(** A trend line object that carries the four coordinates of a segment. *)
Definition reads_as (line : Vision.Json) (sg : Vision.Segment) : Prop :=
  ∃ fields, line = Vision.JObj fields
    ∧ fields !! "x1" = Some (Vision.x1 sg) ∧ fields !! "x2" = Some (Vision.x2 sg)
    ∧ fields !! "y1" = Some (Vision.y1 sg) ∧ fields !! "y2" = Some (Vision.y2 sg).

(** A pattern object whose [trendlines] list carries these segments. *)
Definition carries (pattern : Vision.Json) (sgs : list Vision.Segment) : Prop :=
  ∃ fields lines, pattern = Vision.JObj fields
    ∧ fields !! "trendlines" = Some (Vision.JArr lines)
    ∧ Forall2 reads_as lines sgs.

Definition is_object (v : Vision.Json) : bool :=
  match v with Vision.JObj _ => true | _ => false end.

End Observe.

(** ** Concrete surroundings used to exercise the statements *)

Module Scenario.
Import Py Dispatcher.

Definition quiet_service (s : Stream) : Service :=
  {| client_new := λ _ _, None;
     chat_create := λ _ _, None;
     chat_append := λ _ _, None;
     chat_stream := λ _, s |}.

Definition configured (s : Stream) : Env :=
  {| xai_api_key := Some "xai-test-key";
     service := quiet_service s;
     format_exc := λ e, "Traceback (most recent call last):";
     str_upper := ascii_upper |}.

Definition unconfigured : Env :=
  {| xai_api_key := None;
     service := quiet_service StreamEnd;
     format_exc := λ e, "Traceback (most recent call last):";
     str_upper := ascii_upper |}.

Definition three_chunks : Stream :=
  StreamChunk "# TSLA" (StreamChunk "" (StreamChunk " sentiment" StreamEnd)).

Definition broken_stream : Stream :=
  StreamChunk "# TSLA" (StreamRaise (Other "RpcError" "deadline exceeded" true)).

(** The reply text [{"patterns": [{}]}]. *)
Definition bare_pattern_reply : string :=
  "{" +:+ dquote +:+ "patterns" +:+ dquote +:+ ": [{}]}".

(** A vision service that answers [content], with a decoder that knows
    the two JSON texts used below and rejects plain prose the way
    [json.loads] does. *)
Definition vision_env (content : string) : Vision.Env unit :=
  {| Vision.completions_create := λ _, inr (Some content);
     Vision.json_loads := λ s,
       if bool_decide (s = "{}") then inr (Vision.JObj ∅)
       else if bool_decide (s = bare_pattern_reply)
            then inr (Vision.JObj {[ "patterns" := Vision.JArr [Vision.JObj ∅] ]})
       else inl (ValueError "Expecting value: line 1 column 1 (char 0)");
     Vision.ax_plot := λ _, None |}.

End Scenario.

Module Cases.
Import Py Dispatcher.

(** A configured environment in which creating the chat fails. *)
Definition no_chat : Env :=
  {| xai_api_key := Some "xai-test-key";
     service := {| client_new := λ _ _, None;
                   chat_create := λ _ _, Some (Other "RpcError" "unavailable" true);
                   chat_append := λ _ _, None;
                   chat_stream := λ _, Scenario.three_chunks |};
     format_exc := λ e, "Traceback (most recent call last):";
     str_upper := ascii_upper |}.

Definition interrupted_stream : Stream :=
  StreamChunk "# TSLA" (StreamRaise (Other "KeyboardInterrupt" "" false)).

Definition wedge_line : Vision.Json :=
  Vision.JObj {[ "x1" := Vision.JInt 100; "y1" := Vision.JInt 200;
                 "x2" := Vision.JInt 400; "y2" := Vision.JInt 150 ]}.

Definition wedge_segment : Vision.Segment :=
  {| Vision.x1 := Vision.JInt 100; Vision.x2 := Vision.JInt 400;
     Vision.y1 := Vision.JInt 200; Vision.y2 := Vision.JInt 150 |}.

Definition wedge_pattern : Vision.Json :=
  Vision.JObj {[ "name" := Vision.JStr "Falling Wedge";
                 "confidence" := Vision.JFloat "0.85";
                 "breakout_bias" := Vision.JStr "bullish";
                 "trendlines" := Vision.JArr [wedge_line] ]}.

(** A pattern whose only line has lost its [y2]. *)
Definition clipped_pattern : Vision.Json :=
  Vision.JObj {[ "name" := Vision.JStr "Rising Wedge";
                 "trendlines" := Vision.JArr [Vision.JObj {[
                    "x1" := Vision.JInt 10; "y1" := Vision.JInt 20;
                    "x2" := Vision.JInt 30 ]}] ]}.

(** A pattern whose only line gives a list where a number is expected. *)
Definition nested_pattern : Vision.Json :=
  Vision.JObj {[ "name" := Vision.JStr "Pennant";
                 "trendlines" := Vision.JArr [Vision.JObj {[
                    "x1" := Vision.JArr [Vision.JInt 10; Vision.JInt 20];
                    "y1" := Vision.JInt 20;
                    "x2" := Vision.JInt 30; "y2" := Vision.JInt 40 ]}] ]}.

Definition two_wedges : gmap string Vision.Json :=
  {[ "analysis" := Vision.JStr "Two wedges.";
     "patterns" := Vision.JArr [wedge_pattern; wedge_pattern] ]}.

Definition wedge_then_clipped : gmap string Vision.Json :=
  {[ "analysis" := Vision.JStr "Two wedges.";
     "patterns" := Vision.JArr [wedge_pattern; clipped_pattern] ]}.

Definition is_number (v : Vision.Json) : bool :=
  match v with
  | Vision.JInt _ | Vision.JFloat _ => true
  | _ => false
  end.

(** A plotter that accepts numbers and rejects everything else. *)
Definition numbers_only (sg : Vision.Segment) : option Exc :=
  if is_number (Vision.x1 sg) && is_number (Vision.x2 sg)
     && is_number (Vision.y1 sg) && is_number (Vision.y2 sg)
  then None
  else Some (ValueError "setting an array element with a sequence.").

Definition wedge_then_nested : gmap string Vision.Json :=
  {[ "analysis" := Vision.JStr "Two wedges.";
     "patterns" := Vision.JArr [wedge_pattern; nested_pattern] ]}.

(** A vision service whose reply decodes to [v], whatever its text. *)
Definition decoded (v : Vision.Json) : Vision.Env unit :=
  {| Vision.completions_create := λ _, inr (Some "(reply)");
     Vision.json_loads := λ _, inr v;
     Vision.ax_plot := numbers_only |}.

End Cases.

(** * Properties *)

Section StringFacts.

Lemma append_cons (x : ascii) (a b : string) :
  String x a +:+ b = String x (a +:+ b).
Proof. reflexivity. Qed.

Lemma append_assoc (a b c : string) : (a +:+ b) +:+ c = a +:+ b +:+ c.
Proof.
  induction a as [|x a IH]; [done |].
  by rewrite !append_cons, IH.
Qed.

End StringFacts.

Module DispatcherFacts.
Import Py Format Dispatcher.

Lemma find_selected_absent ANALYSES analysis_name :
  well_named ANALYSES = true →
  in_catalog ANALYSES analysis_name = false →
  find_selected ANALYSES analysis_name = Run [] (Ok None).
Proof.
  induction ANALYSES as [|a rest IH]; simpl; [done |].
  intros [Ha Hrest]%andb_prop Hin.
  apply bool_decide_eq_true in Ha as [v Hv]. rewrite Hv in Hin |- *.
  apply orb_false_elim in Hin as [-> Hin]. by apply IH.
Qed.

Lemma catalogs_well_named ANALYSES :
  ANALYSES ∈ catalogs → well_named ANALYSES = true.
Proof.
  unfold catalogs. rewrite !elem_of_cons, elem_of_nil.
  intros [-> | [-> | [-> | [-> | []]]]]; by vm_compute.
Qed.

Lemma find_selected_trace ANALYSES analysis_name :
  trace (find_selected ANALYSES analysis_name) = [].
Proof.
  induction ANALYSES as [|a rest IH]; simpl; [done |].
  destruct (a !! "name") as [v|]; [|done].
  by destruct (eq_str v analysis_name).
Qed.

Lemma render_prompt_trace selected kwargs :
  trace (render_prompt selected kwargs) = [].
Proof.
  unfold render_prompt.
  destruct (selected !! "prompt_template") as [[tpl| |]|]; try done.
  by destruct (format tpl kwargs).
Qed.

Lemma yields_emit_then t (m : M unit) :
  yields (emit (Yield t);; m) = t :: yields m.
Proof. reflexivity. Qed.

Lemma consume_chunk acc c content rest :
  consume acc (StreamChunk (String c content) rest)
  = (emit (Yield (acc +:+ String c content));;
     consume (acc +:+ String c content) rest).
Proof. reflexivity. Qed.

Lemma consume_empty_chunk acc rest :
  consume acc (StreamChunk "" rest) = consume acc rest.
Proof. reflexivity. Qed.

Ltac stream_induction s IH :=
  let content := fresh "content" in
  let c := fresh "c" in
  induction s as [|content rest IH|e]; intros acc;
  [ | destruct content as [|c content];
      [rewrite consume_empty_chunk | rewrite consume_chunk] | ].

(** Every snapshot extends the accumulator the loop started from. *)
Lemma consume_extends s : ∀ acc,
  Forall (grows_by_suffix acc) (yields (consume acc s)).
Proof.
  stream_induction s IH; [by constructor | apply IH | | by constructor].
  rewrite yields_emit_then. constructor.
  - eexists. split; [| reflexivity]. done.
  - eapply Forall_impl; [apply IH |].
    intros y (suffix & Hne & ->). eexists. split; [| by rewrite append_assoc].
    by rewrite append_cons.
Qed.

Lemma prefix_monotonic_cons y ys :
  Forall (grows_by_suffix y) ys → prefix_monotonic ys → prefix_monotonic (y :: ys).
Proof.
  intros Hall Hmono [|i] prev next; simpl.
  - intros [= <-] Hnext. destruct ys as [|y' ys']; [done |].
    simpl in Hnext. injection Hnext as <-. by inversion Hall.
  - apply Hmono.
Qed.

Lemma consume_prefix_monotonic s : ∀ acc,
  prefix_monotonic (yields (consume acc s)).
Proof.
  stream_induction s IH; [by intros [|?] ? ? | apply IH | | by intros [|?] ? ?].
  rewrite yields_emit_then.
  apply prefix_monotonic_cons; [apply consume_extends | apply IH].
Qed.

Lemma consume_until_failure s : ∀ acc,
  yields (consume acc (until_failure s)) = yields (consume acc s).
Proof.
  stream_induction s IH; [done | | | done]; simpl until_failure.
  - rewrite consume_empty_chunk. apply IH.
  - by rewrite consume_chunk, !yields_emit_then, IH.
Qed.

Lemma consume_no_requests s : ∀ acc, stream_requests (consume acc s) = [].
Proof.
  stream_induction s IH; [done | apply IH | | done].
  apply IH.
Qed.

Lemma bind_pure {A B} (a : A) (k : A → M B) : (Run [] (Ok a) ≫= k) = k a.
Proof. unfold mbind, M_bind. simpl. by destruct (k a). Qed.

Lemma bind_call_returns {B} ev (k : unit → M B) :
  (call ev None ≫= k) = Run (ev :: trace (k tt)) (outcome (k tt)).
Proof. reflexivity. Qed.

Lemma bind_call_raises {B} ev e (k : unit → M B) :
  (call ev (Some e) ≫= k) = Run [ev] (Raised e).
Proof. reflexivity. Qed.

Ltac stops_early :=
  left; split; [reflexivity | split; [reflexivity | simpl; discriminate]].

Ltac step_call r :=
  destruct r as [?e|];
  [rewrite bind_call_raises; try stops_early | rewrite bind_call_returns].

(** The body of the [try] either stops before it asks for the stream,
    having yielded nothing, or it is the loop over one stream. *)
Lemma try_body_cases env api_key selected kwargs :
  let body := try_body env api_key selected kwargs in
  (yields body = [] ∧ stream_requests body = [] ∧ outcome body ≠ Ok tt)
  ∨ ∃ prompt,
      let messages := [(System, system_instruction); (User, prompt)] in
      let loop := consume "" (chat_stream (service env) messages) in
      render_prompt selected kwargs = Run [] (Ok prompt)
      ∧ yields body = yields loop
      ∧ outcome body = outcome loop
      ∧ stream_requests body = [messages].
Proof.
  intros body. subst body. unfold try_body.
  step_call (client_new (service env) api_key 300).
  pose proof (render_prompt_trace selected kwargs) as Htrace.
  destruct (render_prompt selected kwargs) as [tr [prompt|e|]];
    simpl in Htrace; subst tr.
  2,3: stops_early.
  rewrite bind_pure.
  step_call (chat_create (service env) "grok-4-1-fast-reasoning"
               ["web_search"; "x_search"]).
  step_call (chat_append (service env) System system_instruction).
  step_call (chat_append (service env) User prompt).
  right. exists prompt. split; [reflexivity |]. split; [reflexivity |].
  split; [reflexivity |].
  change (stream_requests _) with
    ([(System, system_instruction); (User, prompt)] :: stream_requests
       (consume "" (chat_stream (service env)
                      [(System, system_instruction); (User, prompt)]))).
  by rewrite consume_no_requests.
Qed.

Lemma try_body_ending env api_key selected kwargs :
  yields (try_body (with_streams_ending env) api_key selected kwargs)
  = yields (try_body env api_key selected kwargs).
Proof.
  unfold try_body, with_streams_ending. simpl service. simpl client_new.
  simpl chat_create. simpl chat_append. simpl chat_stream.
  destruct (client_new (service env) api_key 300) as [e|];
    [by rewrite !bind_call_raises | rewrite !bind_call_returns].
  pose proof (render_prompt_trace selected kwargs) as Htrace.
  destruct (render_prompt selected kwargs) as [tr [prompt|e|]];
    simpl in Htrace; subst tr; [| done..].
  rewrite !bind_pure.
  destruct (chat_create (service env) "grok-4-1-fast-reasoning"
              ["web_search"; "x_search"]) as [e|];
    [by rewrite !bind_call_raises | rewrite !bind_call_returns].
  destruct (chat_append (service env) System system_instruction) as [e|];
    [by rewrite !bind_call_raises | rewrite !bind_call_returns].
  destruct (chat_append (service env) User prompt) as [e|];
    [by rewrite !bind_call_raises | rewrite !bind_call_returns].
  apply (consume_until_failure _ "").
Qed.

Lemma try_except_returns {A} (body : M A) handler a :
  outcome body = Ok a → try_except body handler = body.
Proof. unfold try_except. by intros ->. Qed.

Lemma try_except_handles {A} (body : M A) handler e :
  outcome body = Raised e → is_Exception e = true →
  try_except body handler
  = Run (trace body ++ trace (handler e)) (outcome (handler e)).
Proof. unfold try_except. by intros -> ->. Qed.

Lemma try_except_trace {A} (body : M A) handler :
  ∃ t, trace (try_except body handler) = trace body ++ t.
Proof.
  unfold try_except. destruct (outcome body) as [a|e|].
  - exists []. by rewrite app_nil_r.
  - destruct (is_Exception e); [by eexists |]. exists []. by rewrite app_nil_r.
  - exists []. by rewrite app_nil_r.
Qed.

(** Past the two guards a run is the [try] statement. *)
Lemma perform_analysis_selected env ANALYSES analysis_name
    stock sector capfocus risk_level api_key selected :
  xai_api_key env = Some api_key → api_key ≠ "" →
  outcome (find_selected ANALYSES analysis_name) = Ok (Some selected) →
  perform_analysis env ANALYSES analysis_name stock sector capfocus risk_level
  = try_except
      (try_body env api_key selected (format_params env stock sector capfocus risk_level))
      (λ e, emit (Yield (error_message env e))).
Proof.
  intros Hkey Hne Hsel. unfold perform_analysis. rewrite Hkey.
  destruct api_key as [|c k]; [done |].
  pose proof (find_selected_trace ANALYSES analysis_name) as Htrace.
  destruct (find_selected ANALYSES analysis_name) as [tr o].
  simpl in Hsel, Htrace. subst tr o. by rewrite bind_pure.
Qed.

Lemma error_message_contains env e :
  contains "Error" (error_message env e)
  ∧ contains (str e) (error_message env e)
  ∧ contains (format_exc env e) (error_message env e).
Proof.
  unfold error_message. repeat split.
  - by exists "### ❌ ", (nl +:+ str e +:+ nl +:+ nl +:+ "```" +:+ nl
                            +:+ format_exc env e +:+ nl +:+ "```").
  - by exists ("### ❌ Error" +:+ nl), (nl +:+ nl +:+ "```" +:+ nl
                            +:+ format_exc env e +:+ nl +:+ "```").
  - exists ("### ❌ Error" +:+ nl +:+ str e +:+ nl +:+ nl +:+ "```" +:+ nl),
      (nl +:+ "```").
    by rewrite !append_assoc.
Qed.

(** C1: when the credential is set, the name is in the catalog and the
    body of the [try] runs to its end, the yielded values grow strictly:
    each one is the one before it followed by a non-empty suffix, and
    none is empty. *)
Theorem successful_run_prefix_monotonic env ANALYSES analysis_name
    stock sector capfocus risk_level api_key selected :
  xai_api_key env = Some api_key → api_key ≠ "" →
  outcome (find_selected ANALYSES analysis_name) = Ok (Some selected) →
  outcome (try_body env api_key selected
             (format_params env stock sector capfocus risk_level)) = Ok tt →
  let run := perform_analysis env ANALYSES analysis_name stock sector capfocus risk_level in
  prefix_monotonic (yields run)
  ∧ (∀ y, y ∈ yields run → y ≠ "")
  ∧ outcome run = Ok tt.
Proof.
  intros Hkey Hne Hsel Hok run. subst run.
  rewrite (perform_analysis_selected _ _ _ _ _ _ _ _ _ Hkey Hne Hsel).
  rewrite (try_except_returns _ _ _ Hok).
  destruct (try_body_cases env api_key selected
              (format_params env stock sector capfocus risk_level))
    as [(_ & _ & Hstop) | (prompt & _ & -> & _ & _)]; [done |].
  split; [apply consume_prefix_monotonic |]. split; [| done].
  intros y Hy.
  pose proof (consume_extends
    (chat_stream (service env) [(System, system_instruction); (User, prompt)]) "")
    as Hall.
  rewrite Forall_forall in Hall. destruct (Hall y Hy) as (suffix & Hsuffix & ->).
  done.
Qed.

Lemma successful_run_witness :
  prefix_monotonic
    (yields (perform_analysis (Scenario.configured Scenario.three_chunks)
               Final.ANALYSES (Some "Real-Time stock sentiment")
               (Some "tsla") None None None)).
Proof.
  eapply (successful_run_prefix_monotonic
            (Scenario.configured Scenario.three_chunks) Final.ANALYSES
            (Some "Real-Time stock sentiment") (Some "tsla") None None None).
  - reflexivity.
  - discriminate.
  - reflexivity.
  - vm_compute. reflexivity.
Defined.

(** C5: when the body of the [try] raises an [Exception], the run
    still returns normally; its yields are the ones made before the
    failure, unchanged and growing, followed by exactly one message that
    carries the error heading, [str(e)] and the traceback text.  The
    earlier yields are those the same conversation gives when its stream
    simply ends at that point; the handler makes no call into the SDK and
    the stream is requested at most once. *)
Theorem failure_single_final_message env ANALYSES analysis_name
    stock sector capfocus risk_level api_key selected e :
  xai_api_key env = Some api_key → api_key ≠ "" →
  outcome (find_selected ANALYSES analysis_name) = Ok (Some selected) →
  outcome (try_body env api_key selected
             (format_params env stock sector capfocus risk_level)) = Raised e →
  is_Exception e = true →
  let body := try_body env api_key selected
                (format_params env stock sector capfocus risk_level) in
  let run := perform_analysis env ANALYSES analysis_name stock sector capfocus risk_level in
  yields run = yields body ++ [error_message env e]
  ∧ outcome run = Ok tt
  ∧ prefix_monotonic (yields body)
  ∧ yields body = yields (try_body (with_streams_ending env) api_key selected
                            (format_params env stock sector capfocus risk_level))
  ∧ contains "Error" (error_message env e)
  ∧ contains (str e) (error_message env e)
  ∧ contains (format_exc env e) (error_message env e)
  ∧ service_calls run = service_calls body
  ∧ length (stream_requests run) ≤ 1.
Proof.
  intros Hkey Hne Hsel Hraised Hexc body run. subst body run.
  rewrite (perform_analysis_selected _ _ _ _ _ _ _ _ _ Hkey Hne Hsel).
  rewrite (try_except_handles _ _ _ Hraised Hexc).
  unfold yields at 1, stream_requests, service_calls at 1.
  simpl trace. simpl outcome.
  rewrite !omap_app, length_app. simpl. rewrite app_nil_r.
  split; [done |]. split; [done |].
  pose proof (error_message_contains env e) as (? & ? & ?).
  rewrite try_body_ending.
  destruct (try_body_cases env api_key selected
              (format_params env stock sector capfocus risk_level))
    as [(Hy & Hreq & _) | (prompt & _ & Hy & _ & Hreq)].
  - unfold stream_requests in Hreq. rewrite Hy, Hreq.
    split; [by intros [|?] ? ? |]. simpl. auto 10.
  - unfold stream_requests in Hreq. rewrite Hy, Hreq.
    split; [apply consume_prefix_monotonic |]. simpl. auto 10.
Qed.

Lemma failure_witness :
  yields (perform_analysis (Scenario.configured Scenario.broken_stream)
            Final.ANALYSES (Some "Real-Time stock sentiment")
            (Some "tsla") None None None)
  = ["# TSLA";
     error_message (Scenario.configured Scenario.broken_stream)
       (Other "RpcError" "deadline exceeded" true)].
Proof.
  pose proof (failure_single_final_message
                (Scenario.configured Scenario.broken_stream) Final.ANALYSES
                (Some "Real-Time stock sentiment") (Some "tsla") None None None
                "xai-test-key" _ (Other "RpcError" "deadline exceeded" true)
                eq_refl ltac:(discriminate) eq_refl eq_refl eq_refl) as [Hyields _].
  rewrite Hyields. reflexivity.
Defined.

(** C2: the substitution map always has exactly the four fixed keys,
    whatever definition is selected: [stock] is the ticker as [str.upper]
    returns it, or [N/A] when missing or empty, [sector] and [capfocus]
    fall back to [unspecified], [risk] to [medium].  For "Real-Time stock
    sentiment" with stock [tsla] (which [str.upper] turns into [TSLA]) and
    nothing else, the map is the expected one, the rendered prompt
    contains [TSLA], and it is the prompt sent as the user turn. *)
Theorem substitution_map_defaults :
  (∀ env stock sector capfocus risk_level,
     let kwargs := format_params env stock sector capfocus risk_level in
     dom kwargs = {[ "stock"; "sector"; "capfocus"; "risk" ]}
     ∧ kwargs !! "stock"
       = Some (if truthy stock then str_upper env (default "" stock) else "N/A")
     ∧ kwargs !! "sector"
       = Some (if truthy sector then default "" sector else "unspecified")
     ∧ kwargs !! "capfocus"
       = Some (if truthy capfocus then default "" capfocus else "unspecified")
     ∧ kwargs !! "risk"
       = Some (if truthy risk_level then default "" risk_level else "medium"))
  ∧ ∀ env, str_upper env "tsla" = "TSLA" →
      format_params env (Some "tsla") None None None
      = {[ "stock" := "TSLA"; "sector" := "unspecified";
           "capfocus" := "unspecified"; "risk" := "medium" ]}
      ∧ ∃ prompt,
          contains "TSLA" prompt
          ∧ (∃ selected,
               outcome (find_selected Final.ANALYSES (Some "Real-Time stock sentiment"))
               = Ok (Some selected)
               ∧ render_prompt selected (format_params env (Some "tsla") None None None)
                 = Run [] (Ok prompt))
          ∧ ∀ api_key,
              xai_api_key env = Some api_key → api_key ≠ "" →
              client_new (service env) api_key 300 = None →
              chat_create (service env) "grok-4-1-fast-reasoning"
                ["web_search"; "x_search"] = None →
              chat_append (service env) System system_instruction = None →
              ChatAppend User prompt
                ∈ trace (perform_analysis env Final.ANALYSES
                           (Some "Real-Time stock sentiment")
                           (Some "tsla") None None None).
Proof.
  split.
  - intros env stock sector capfocus risk_level kwargs. subst kwargs.
    split.
    + unfold format_params. rewrite !dom_insert_L, dom_singleton_L. set_solver.
    + by destruct stock as [[|? ?]|], sector as [[|? ?]|],
        capfocus as [[|? ?]|], risk_level as [[|? ?]|].
  - intros env Hupper.
    assert (format_params env (Some "tsla") None None None
            = {[ "stock" := "TSLA"; "sector" := "unspecified";
                 "capfocus" := "unspecified"; "risk" := "medium" ]}) as Hmap.
    { unfold format_params. by rewrite Hupper. }
    split; [exact Hmap |]. rewrite Hmap.
    assert (render_prompt (default ∅ (Final.ANALYSES !! 0%nat))
              {[ "stock" := "TSLA"; "sector" := "unspecified";
                 "capfocus" := "unspecified"; "risk" := "medium" ]}
            = Run [] (Ok ("Search X (Twitter) for the latest discussions about "
                          +:+ "TSLA"
                          +:+ " and analyze the sentiment. Focus on actionable insights, not noise.")))
      as Hrender by (by vm_compute).
    eexists. split; [| split].
    + by exists "Search X (Twitter) for the latest discussions about ",
        " and analyze the sentiment. Focus on actionable insights, not noise.".
    + eexists. split; [reflexivity |]. exact Hrender.
    + intros api_key Hkey Hne Hclient Hcreate Hsystem.
      rewrite (perform_analysis_selected env Final.ANALYSES
                 (Some "Real-Time stock sentiment") (Some "tsla") None None None
                 api_key (default ∅ (Final.ANALYSES !! 0%nat))
                 Hkey Hne ltac:(by vm_compute)).
      rewrite Hmap.
      destruct (try_except_trace
                  (try_body env api_key (default ∅ (Final.ANALYSES !! 0%nat))
                     {[ "stock" := "TSLA"; "sector" := "unspecified";
                        "capfocus" := "unspecified"; "risk" := "medium" ]})
                  (λ e, emit (Yield (error_message env e))))
        as [t Ht].
      rewrite Ht. apply elem_of_app. left. unfold try_body.
      rewrite Hclient, bind_call_returns, Hrender, bind_pure.
      rewrite Hcreate, bind_call_returns, Hsystem, bind_call_returns.
      simpl trace. do 3 apply list_elem_of_further.
      by destruct (chat_append (service env) User _); apply list_elem_of_here.
Qed.

Lemma substitution_map_witness :
  format_params (Scenario.configured Scenario.three_chunks)
    (Some "tsla") None None None
  = {[ "stock" := "TSLA"; "sector" := "unspecified";
       "capfocus" := "unspecified"; "risk" := "medium" ]}.
Proof.
  apply (proj2 substitution_map_defaults
           (Scenario.configured Scenario.three_chunks)).
  reflexivity.
Defined.

(** C3: without a credential every run is the single configuration
    message: one yield, naming the missing [XAI_API_KEY] under an error
    heading, a normal return, and no call into the SDK. *)
Theorem missing_credential_single_message env ANALYSES
    analysis_name stock sector capfocus risk_level :
  truthy (xai_api_key env) = false →
  let run := perform_analysis env ANALYSES analysis_name stock sector capfocus risk_level in
  yields run = [missing_key_message]
  ∧ outcome run = Ok tt
  ∧ service_calls run = []
  ∧ contains "Error" missing_key_message
  ∧ contains "`XAI_API_KEY` not found" missing_key_message.
Proof.
  intros Hkey run. subst run. unfold perform_analysis.
  destruct (xai_api_key env) as [[|c k]|]; simpl in Hkey; try discriminate.
  all: repeat split; try reflexivity.
  all: try (by exists ("### ⚠️ "), (nl +:+ "`XAI_API_KEY` not found in environment variables.")).
  all: by exists ("### ⚠️ Error" +:+ nl), " in environment variables.".
Qed.

Lemma missing_credential_witness :
  yields (perform_analysis Scenario.unconfigured Final.ANALYSES
            (Some "Real-Time stock sentiment") (Some "tsla") None None None)
    = [missing_key_message].
Proof.
  apply (missing_credential_single_message Scenario.unconfigured Final.ANALYSES
           (Some "Real-Time stock sentiment") (Some "tsla") None None None).
  reflexivity.
Defined.

(** C4: with a credential, a name that matches no catalog entry gives
    the single message [Invalid Selection.], a normal return, and no
    call into the SDK; this holds in each of the four catalogs. *)
Theorem unknown_selection_single_message env ANALYSES
    analysis_name stock sector capfocus risk_level :
  ANALYSES ∈ catalogs →
  truthy (xai_api_key env) = true →
  in_catalog ANALYSES analysis_name = false →
  let run := perform_analysis env ANALYSES analysis_name stock sector capfocus risk_level in
  yields run = ["Invalid Selection."]
  ∧ outcome run = Ok tt
  ∧ service_calls run = [].
Proof.
  intros Hcat Hkey Hin run. subst run. unfold perform_analysis.
  destruct (xai_api_key env) as [[|c k]|]; simpl in Hkey; try discriminate.
  rewrite find_selected_absent by auto using catalogs_well_named.
  by repeat split.
Qed.

Lemma unknown_selection_witness :
  yields (perform_analysis (Scenario.configured Scenario.three_chunks) Final.ANALYSES
            (Some "Nonexistent") (Some "tsla") None None None)
    = ["Invalid Selection."].
Proof.
  apply (unknown_selection_single_message (Scenario.configured Scenario.three_chunks)
           Final.ANALYSES (Some "Nonexistent") (Some "tsla") None None None).
  - apply list_elem_of_here.
  - reflexivity.
  - vm_compute. reflexivity.
Defined.

End DispatcherFacts.

Module CatalogFacts.
Import Py Format Dispatcher Check.

Lemma forallb_elem_of {A} (f : A → bool) (l : list A) (x : A) :
  forallb f l = true → x ∈ l → f x = true.
Proof.
  induction l as [|y l IH]; simpl; [by intros _ ?%elem_of_nil |].
  intros [Hy Hl]%andb_prop [-> | Hx]%elem_of_cons; auto.
Qed.

(** The scanner reports syntax errors only, never a missing key. *)
Lemma markup_no_key_error tpl : ∀ st k, MError (KeyError k) ∉ markup st tpl.
Proof.
  induction tpl as [|c rest IH]; intros st k.
  - destruct st; simpl; rewrite ?not_elem_of_cons; repeat split;
      try done; apply not_elem_of_nil.
  - destruct st as [| | |name]; simpl;
      repeat (destruct (bool_decide _); simpl);
      rewrite ?not_elem_of_cons; repeat split;
      try done; try apply IH; try apply not_elem_of_nil.
    unfold close_field. destruct name; [done |]. by destruct (all_digits _).
Qed.

Lemma render_no_key_error items kwargs k :
  MError (KeyError k) ∉ items →
  (∀ n, n ∈ fields items → is_Some (kwargs !! n)) →
  render items kwargs ≠ Raise (KeyError k).
Proof.
  induction items as [|m items IH]; [done |].
  intros [Hm Hitems]%not_elem_of_cons Hfields.
  destruct m as [c|name|e|]; simpl in *.
  - specialize (IH Hitems Hfields). by destruct (render items kwargs).
  - destruct name as [|c name]; [done |].
    destruct (Hfields (String c name)) as [v ->]; [set_solver |].
    assert (render items kwargs ≠ Raise (KeyError k)) as IH'
      by (apply IH; [done | set_solver]).
    by destruct (render items kwargs).
  - congruence.
  - done.
Qed.

Lemma render_unmodelled items kwargs :
  render items kwargs = Unmodelled → existsb is_unmodelled items = true.
Proof.
  induction items as [|m items IH]; [done |].
  destruct m as [c|name|e|]; simpl; try done.
  - destruct (render items kwargs); auto; done.
  - destruct name as [|c name]; [done |].
    destruct (kwargs !! String c name); [| done].
    destruct (render items kwargs); auto; done.
Qed.

Lemma catalogs_templates_ok ANALYSES :
  ANALYSES ∈ catalogs → forallb entry_template_ok ANALYSES = true.
Proof.
  unfold catalogs. rewrite !elem_of_cons, elem_of_nil.
  intros [-> | [-> | [-> | [-> | []]]]]; by vm_compute.
Qed.

(** C6: every entry of every catalog has a string template whose
    placeholders are among the four fixed keys, so rendering it with a
    map that has those keys never raises a missing-key error (and stays
    within the modelled part of [str.format]). *)
Theorem catalog_templates_never_miss_a_key ANALYSES a :
  ANALYSES ∈ catalogs → a ∈ ANALYSES →
  ∃ tpl,
    a !! "prompt_template" = Some (VStr tpl)
    ∧ (∀ p, p ∈ placeholders tpl → p ∈ fixed_keys)
    ∧ ∀ kwargs : gmap string string,
        (∀ key, key ∈ fixed_keys → is_Some (kwargs !! key)) →
        format tpl kwargs ≠ Unmodelled
        ∧ ∀ k, format tpl kwargs ≠ Raise (KeyError k).
Proof.
  intros Hcat Ha.
  pose proof (forallb_elem_of _ _ _ (catalogs_templates_ok _ Hcat) Ha) as Hok.
  unfold entry_template_ok in Hok.
  destruct (a !! "prompt_template") as [[tpl| |]|]; try done.
  apply andb_prop in Hok as [Hph Hfrag]. exists tpl. split; [done |].
  assert (∀ p, p ∈ placeholders tpl → p ∈ fixed_keys) as Hsub.
  { intros p Hp. by apply (forallb_elem_of _ _ _ Hph), bool_decide_eq_true in Hp. }
  split; [done |]. intros kwargs Hkeys. unfold format. split.
  - intros Hun%render_unmodelled. by rewrite Hun in Hfrag.
  - intros k. apply render_no_key_error; [apply markup_no_key_error |].
    intros n Hn. apply Hkeys, Hsub, Hn.
Qed.

Lemma catalog_templates_witness :
  ∃ tpl,
    (Market.ANALYSES !! 19%nat) ≫= (.!! "prompt_template") = Some (VStr tpl)
    ∧ ∀ k, format tpl (format_params (Scenario.configured Scenario.three_chunks)
                         (Some "tsla") None None None)
           ≠ Raise (KeyError k).
Proof.
  destruct (catalog_templates_never_miss_a_key Market.ANALYSES
              (default ∅ (Market.ANALYSES !! 19%nat)))
    as (tpl & Htpl & _ & Hfmt).
  - unfold catalogs. do 2 apply list_elem_of_further. apply list_elem_of_here.
  - apply (list_elem_of_lookup_2 _ 19). reflexivity.
  - exists tpl. split; [exact Htpl |].
    apply Hfmt. intros key Hkey. unfold fixed_keys in Hkey.
    rewrite !elem_of_cons, elem_of_nil in Hkey.
    destruct Hkey as [-> | [-> | [-> | [-> | []]]]]; by eexists.
Defined.

(** What the entry cited with C6 does instead: its template has a stray
    closing brace, and rendering fails with a [ValueError]. *)
Lemma market_stray_brace :
  ∃ a tpl,
    Market.ANALYSES !! 19%nat = Some a
    ∧ a !! "name" = Some (VStr "Future Price Path Simulation")
    ∧ a !! "prompt_template" = Some (VStr tpl)
    ∧ ∀ env stock sector capfocus risk_level,
        format tpl (format_params env stock sector capfocus risk_level)
        = Raise (ValueError "Single '}' encountered in format string").
Proof.
  do 2 eexists. split; [reflexivity |]. split; [reflexivity |].
  split; [reflexivity |]. intros. by vm_compute.
Qed.

(** C7, at the entries where it fails: "Bear-to-Bull Flip Alert" lists
    [sector] and [risk] in both market catalogs, and its template has no
    placeholder at all. *)
Theorem params_differ_from_placeholders :
  (∃ a tpl,
     Market.ANALYSES !! 5%nat = Some a
     ∧ a !! "name" = Some (VStr "Bear-to-Bull Flip Alert")
     ∧ a !! "params" = Some (VList ["sector"; "risk"])
     ∧ a !! "prompt_template" = Some (VStr tpl)
     ∧ placeholders tpl = []
     ∧ params_match a = false)
  ∧ (∃ a tpl,
       ResearchEngine.ANALYSES !! 5%nat = Some a
       ∧ a !! "name" = Some (VStr "Bear-to-Bull Flip Alert")
       ∧ a !! "params" = Some (VList ["sector"; "risk"])
       ∧ a !! "prompt_template" = Some (VStr tpl)
       ∧ placeholders tpl = []
       ∧ params_match a = false).
Proof.
  split; do 2 eexists; (split; [reflexivity |]); repeat split; by vm_compute.
Qed.

(** Where the lists and the placeholders agree and where they do not. *)
Lemma params_match_survey :
  failing params_match Final.ANALYSES = []
  ∧ failing params_match Market.ANALYSES
    = [Some "Bear-to-Bull Flip Alert"; Some "Crowded Trade Exit Signal"]
  ∧ failing params_match ResearchEngine.ANALYSES
    = [Some "Bear-to-Bull Flip Alert"]
  ∧ failing params_match Sector.ANALYSES
    = [Some "Analyze current discussions on X about emerging trends in sector";
       Some "Identify Stocks with Viral Momentum";
       Some "Create a Real-Time Watchlist Strategy";
       Some "Recent Activity by Sector"].
Proof. repeat split; by vm_compute. Qed.

(** C8, at the entry where it fails: in [stock_and_sector_research.py]
    the second entry is in the catalog, stores its list under
    [required_params], and selecting it makes [update_visibility] raise
    [KeyError('params')]. *)
Theorem update_visibility_missing_params_key :
  let choice := Some "Analyze current discussions on X about emerging trends in sector" in
  in_catalog Sector.ANALYSES choice = true
  ∧ (∃ a, outcome (find_selected Sector.ANALYSES choice) = Ok (Some a)
          ∧ a !! "params" = None
          ∧ a !! "required_params" = Some (VList ["sector"; "capfocus"]))
  ∧ update_visibility Sector.ANALYSES choice = Run [] (Raised (KeyError "params")).
Proof.
  intros choice. split; [by vm_compute |]. split; [| by vm_compute].
  eexists. split; [reflexivity |]. split; by vm_compute.
Qed.

(** In the three other front ends the helper does what C8 says, on every
    entry; in the sector front end it fails on four. *)
Lemma update_visibility_survey :
  failing (visibility_ok Final.ANALYSES) Final.ANALYSES = []
  ∧ failing (visibility_ok Market.ANALYSES) Market.ANALYSES = []
  ∧ failing (visibility_ok ResearchEngine.ANALYSES) ResearchEngine.ANALYSES = []
  ∧ failing (visibility_ok Sector.ANALYSES) Sector.ANALYSES
    = [Some "Analyze current discussions on X about emerging trends in sector";
       Some "Identify Stocks with Viral Momentum";
       Some "Create a Real-Time Watchlist Strategy";
       Some "Recent Activity by Sector"].
Proof. repeat split; by vm_compute. Qed.

(** A name outside the catalog hides all four fields. *)
Lemma update_visibility_unknown ANALYSES choice :
  well_named ANALYSES = true → in_catalog ANALYSES choice = false →
  update_visibility ANALYSES choice = Run [] (Ok [false; false; false; false]).
Proof.
  intros Hwf Hin. unfold update_visibility.
  by rewrite (DispatcherFacts.find_selected_absent _ _ Hwf Hin).
Qed.

End CatalogFacts.

Module VisionFacts.
Import Py Vision.



Section Replies.
Context {Image : Type} (env : Env Image) (img : Image) (content : string).
Hypothesis Hreply : completions_create env img = inr (Some content).

Lemma analyze_parsed v :
  json_loads env content = inr v →
  analyze_chart_with_openai env (Some img) = Ok v.
Proof. unfold analyze_chart_with_openai. by rewrite Hreply; intros ->. Qed.

Lemma analyze_unparsed e :
  json_loads env content = inl e →
  analyze_chart_with_openai env (Some img) = Raised e.
Proof. unfold analyze_chart_with_openai. by rewrite Hreply; intros ->. Qed.

Lemma process_image_parsed fields :
  json_loads env content = inr (JObj fields) →
  process_image env (Some img)
  = (annotated ← draw_annotations env (Some img) (JObj fields);
     mret (default (JStr "No analysis returned.") (fields !! "analysis"),
           annotated)).
Proof.
  intros Hparse. unfold process_image. rewrite (analyze_parsed _ Hparse).
  simpl. by destruct (draw_annotations env (Some img) (JObj fields)).
Qed.

End Replies.

(** C9: when [json.loads] rejects the content of the reply, nothing in
    the classifier catches the exception: [analyze_chart_with_openai]
    and [process_image] both end by raising it. *)
Theorem parse_failure_propagates {Image} (env : Env Image) img content e :
  completions_create env img = inr (Some content) →
  json_loads env content = inl e →
  analyze_chart_with_openai env (Some img) = Raised e
  ∧ process_image env (Some img) = Raised e.
Proof.
  intros Hreply Hparse. unfold process_image.
  by rewrite (analyze_unparsed env img content Hreply e Hparse).
Qed.

Lemma parse_failure_witness :
  process_image (Scenario.vision_env "Sorry, I cannot read this chart.") (Some tt)
  = Raised (ValueError "Expecting value: line 1 column 1 (char 0)").
Proof.
  apply (parse_failure_propagates
           (Scenario.vision_env "Sorry, I cannot read this chart.") tt
           "Sorry, I cannot read this chart."); reflexivity.
Defined.



(** The scenario of the specification: one pattern with one trend line
    gives exactly that segment and the reply's [analysis] text. *)
Lemma one_trendline_drawn {Image} (env : Env Image) img content :
  completions_create env img = inr (Some content) →
  json_loads env content
  = inr (JObj {[ "analysis" := JStr "Falling wedge";
                 "patterns" := JArr [JObj {[
                    "name" := JStr "Falling Wedge";
                    "trendlines" := JArr [JObj {[
                       "x1" := JInt 100; "y1" := JInt 200;
                       "x2" := JInt 400; "y2" := JInt 150 ]}] ]}] ]}) →
  ax_plot env {| x1 := JInt 100; x2 := JInt 400;
                 y1 := JInt 200; y2 := JInt 150 |} = None →
  process_image env (Some img)
  = Ok (JStr "Falling wedge",
        {| chart := img;
           segments := [{| x1 := JInt 100; x2 := JInt 400;
                           y1 := JInt 200; y2 := JInt 150 |}] |}).
Proof.
  intros Hreply Hparse Hplot.
  rewrite (process_image_parsed env img content Hreply _ Hparse).
  unfold draw_annotations, draw_pattern, plot_line.
  vm_compute. vm_compute in Hplot. by rewrite Hplot.
Qed.

End VisionFacts.

(** * Further properties of the front ends *)

Module LookupFacts.
Import Py Format Dispatcher Check Observe Frontend.

Lemma name_of_Some a n : name_of a = Some n ↔ a !! "name" = Some (VStr n).
Proof.
  unfold name_of. destruct (a !! "name") as [[s| |]|]; split; congruence.
Qed.

Lemma eq_str_true v name :
  eq_str v name = true ↔ ∃ n, v = VStr n ∧ name = Some n.
Proof.
  destruct v as [s| |], name as [n|]; simpl; split;
    try done; try (by intros (? & ? & ?)).
  - intros ->%bool_decide_eq_true. by exists n.
  - intros (m & [= ->] & [= ->]). by apply bool_decide_eq_true.
Qed.

(** X1: what the lookup returns is an entry of the catalog whose name is
    the requested string, and it returns nothing only when no entry has
    that name; an unset selection never selects anything. *)
Theorem find_selected_sound ANALYSES analysis_name r :
  outcome (find_selected ANALYSES analysis_name) = Ok r →
  match r with
  | Some a => a ∈ ANALYSES
              ∧ ∃ n, analysis_name = Some n ∧ a !! "name" = Some (VStr n)
  | None => in_catalog ANALYSES analysis_name = false
  end.
Proof.
  induction ANALYSES as [|a rest IH]; simpl.
  - by intros [= <-].
  - destruct (a !! "name") as [v|] eqn:Hname; [| done].
    destruct (eq_str v analysis_name) eqn:Heq; simpl.
    + intros [= <-]. apply eq_str_true in Heq as (n & -> & ->).
      split; [apply list_elem_of_here | by exists n].
    + intros Hr. specialize (IH Hr). destruct r as [b|]; [| done].
      destruct IH as [Hb Hn]. split; [by apply list_elem_of_further | done].
Qed.

Lemma find_selected_sound_witness :
  in_catalog Final.ANALYSES (Some "real-time stock sentiment") = false.
Proof.
  apply (find_selected_sound Final.ANALYSES (Some "real-time stock sentiment") None).
  reflexivity.
Defined.

Lemma find_selected_own ANALYSES :
  names_distinct ANALYSES → ∀ a n, a ∈ ANALYSES → name_of a = Some n →
  find_selected ANALYSES (Some n) = Run [] (Ok (Some a)).
Proof.
  induction ANALYSES as [|a0 rest IH]; intros [Hnodup Hsome] a n Ha Hn.
  - by apply elem_of_nil in Ha.
  - rewrite fmap_cons in Hnodup. apply NoDup_cons in Hnodup as [Hfresh Hnodup].
    apply Forall_cons in Hsome as [[n0 Hn0] Hsome]. simpl.
    pose proof (proj1 (name_of_Some a0 n0) Hn0) as Hlook. rewrite Hlook. simpl.
    apply elem_of_cons in Ha as [-> | Ha].
    + rewrite Hn in Hn0. injection Hn0 as ->. by rewrite bool_decide_eq_true_2.
    + rewrite bool_decide_eq_false_2; [by apply IH |].
      intros ->. apply Hfresh. rewrite Hn0, <- Hn. by apply list_elem_of_fmap_2.
Qed.

Lemma catalogs_names_distinct ANALYSES :
  ANALYSES ∈ catalogs → names_distinct ANALYSES.
Proof.
  unfold catalogs. rewrite !elem_of_cons, elem_of_nil.
  intros [-> | [-> | [-> | [-> | []]]]]; split;
    by apply (bool_decide_unpack _); vm_compute.
Qed.

(** X2: in each of the four catalogs the names are pairwise distinct
    strings, so every choice of the dropdown selects its own entry, not
    an earlier one of the same name. *)
Theorem every_choice_selects_its_entry ANALYSES a :
  ANALYSES ∈ catalogs → a ∈ ANALYSES →
  ∃ n, a !! "name" = Some (VStr n)
       ∧ find_selected ANALYSES (Some n) = Run [] (Ok (Some a)).
Proof.
  intros Hcat Ha. pose proof (catalogs_names_distinct _ Hcat) as Hdist.
  destruct Hdist as [Hnodup Hsome].
  pose proof (proj1 (Forall_forall _ _) Hsome a Ha) as [n Hn].
  exists n. split; [by apply name_of_Some |].
  by apply (find_selected_own ANALYSES).
Qed.

Lemma every_choice_witness :
  ∃ n, default ∅ (ResearchEngine.ANALYSES !! 28%nat) !! "name" = Some (VStr n)
       ∧ find_selected ResearchEngine.ANALYSES (Some n)
         = Run [] (Ok (Some (default ∅ (ResearchEngine.ANALYSES !! 28%nat)))).
Proof.
  apply (every_choice_selects_its_entry ResearchEngine.ANALYSES
           (default ∅ (ResearchEngine.ANALYSES !! 28%nat))).
  - unfold catalogs. do 3 apply list_elem_of_further. apply list_elem_of_here.
  - apply (list_elem_of_lookup_2 _ 28). reflexivity.
Defined.

(** X3: in a catalog with distinct names, selecting an entry that has a
    [params] list shows exactly the inputs the list names, and selecting
    one without the [params] key raises [KeyError('params')]. *)
Theorem update_visibility_by_params ANALYSES a n :
  names_distinct ANALYSES → a ∈ ANALYSES → a !! "name" = Some (VStr n) →
  (∀ params, a !! "params" = Some (VList params) →
     update_visibility ANALYSES (Some n)
     = Run [] (Ok [bool_decide ("stock" ∈ params); bool_decide ("sector" ∈ params);
                   bool_decide ("capfocus" ∈ params); bool_decide ("risk" ∈ params)]))
  ∧ (a !! "params" = None →
     update_visibility ANALYSES (Some n) = Run [] (Raised (KeyError "params"))).
Proof.
  intros Hdist Ha Hn%name_of_Some. unfold update_visibility.
  rewrite (find_selected_own ANALYSES Hdist a n Ha Hn).
  split; [intros params Hp | intros Hp];
    unfold mbind, M_bind; simpl; by rewrite Hp.
Qed.

Lemma update_visibility_by_params_witness :
  update_visibility Final.ANALYSES (Some "Create a Real-Time Watchlist Strategy")
  = Run [] (Ok [false; true; true; true]).
Proof.
  pose proof (update_visibility_by_params Final.ANALYSES
                (default ∅ (Final.ANALYSES !! 7%nat))
                "Create a Real-Time Watchlist Strategy") as Hvis.
  destruct Hvis as [Hlist _].
  - apply catalogs_names_distinct, list_elem_of_here.
  - apply (list_elem_of_lookup_2 _ 7). reflexivity.
  - reflexivity.
  - rewrite (Hlist ["capfocus"; "sector"; "risk"] eq_refl). reflexivity.
Defined.

Lemma catalogs_have_params ANALYSES :
  ANALYSES ∈ [Final.ANALYSES; Market.ANALYSES; ResearchEngine.ANALYSES] →
  forallb (λ a, match a !! "params" with Some (VList _) => true | _ => false end)
    ANALYSES = true.
Proof.
  rewrite !elem_of_cons, elem_of_nil.
  intros [-> | [-> | [-> | []]]]; by vm_compute.
Qed.

(** X4: in [FINAL_catch_trends_stream.py] and the two
    [stock_and_market_research.py] files every entry has a [params] list,
    so the change handler succeeds on every choice of the dropdown and
    returns four flags. *)
Theorem update_visibility_total_in_three ANALYSES a :
  ANALYSES ∈ [Final.ANALYSES; Market.ANALYSES; ResearchEngine.ANALYSES] →
  a ∈ ANALYSES →
  ∃ n params,
    a !! "name" = Some (VStr n) ∧ a !! "params" = Some (VList params)
    ∧ update_visibility ANALYSES (Some n)
      = Run [] (Ok [bool_decide ("stock" ∈ params); bool_decide ("sector" ∈ params);
                    bool_decide ("capfocus" ∈ params); bool_decide ("risk" ∈ params)]).
Proof.
  intros Hthree Ha.
  assert (ANALYSES ∈ catalogs) as Hcat.
  { unfold catalogs. revert Hthree. rewrite !elem_of_cons, !elem_of_nil. tauto. }
  destruct (every_choice_selects_its_entry _ _ Hcat Ha) as (n & Hn & _).
  pose proof (CatalogFacts.forallb_elem_of _ _ _ (catalogs_have_params _ Hthree) Ha)
    as Hp.
  simpl in Hp.
  destruct (a !! "params") as [[s|z|params]|] eqn:Hparams; try discriminate.
  exists n, params. split; [done |]. split; [done |].
  by apply (update_visibility_by_params ANALYSES a n
              (catalogs_names_distinct _ Hcat) Ha Hn).
Qed.

Lemma update_visibility_total_witness :
  ∃ n params,
    default ∅ (Market.ANALYSES !! 5%nat) !! "name" = Some (VStr n)
    ∧ default ∅ (Market.ANALYSES !! 5%nat) !! "params" = Some (VList params)
    ∧ update_visibility Market.ANALYSES (Some n)
      = Run [] (Ok [bool_decide ("stock" ∈ params); bool_decide ("sector" ∈ params);
                    bool_decide ("capfocus" ∈ params); bool_decide ("risk" ∈ params)]).
Proof.
  apply (update_visibility_total_in_three Market.ANALYSES
           (default ∅ (Market.ANALYSES !! 5%nat))).
  - apply list_elem_of_further, list_elem_of_here.
  - apply (list_elem_of_lookup_2 _ 5). reflexivity.
Defined.

(** X5: in all four front ends the inputs start with the visibility the
    change handler computes for the choice the dropdown starts with, and
    that choice is the first of the dropdown's choices. *)
Theorem initial_visibility_matches_default ANALYSES :
  ANALYSES ∈ catalogs →
  ∃ n rest,
    default_value ANALYSES = Run [] (Ok (VStr n))
    ∧ choices ANALYSES = Run [] (Ok (VStr n :: rest))
    ∧ length rest = pred (length ANALYSES)
    ∧ update_visibility ANALYSES (Some n) = Run [] (Ok initial_visibility).
Proof.
  unfold catalogs. rewrite !elem_of_cons, elem_of_nil.
  intros [-> | [-> | [-> | [-> | []]]]]; do 2 eexists;
    (split; [reflexivity |]); (split; [by vm_compute |]); split; by vm_compute.
Qed.

Lemma initial_visibility_witness :
  ∃ n rest,
    default_value Sector.ANALYSES = Run [] (Ok (VStr n))
    ∧ choices Sector.ANALYSES = Run [] (Ok (VStr n :: rest))
    ∧ length rest = pred (length Sector.ANALYSES)
    ∧ update_visibility Sector.ANALYSES (Some n) = Run [] (Ok initial_visibility).
Proof.
  apply (initial_visibility_matches_default Sector.ANALYSES).
  unfold catalogs. apply list_elem_of_further, list_elem_of_here.
Defined.

End LookupFacts.

Module RunFacts.
Import Py Format Dispatcher Check Observe.
Import DispatcherFacts.

Lemma append_empty_r (a : string) : a +:+ "" = a.
Proof.
  induction a as [|x a IH]; [done |].
  by rewrite append_cons, IH.
Qed.

Lemma fragments_chunk c content rest :
  fragments (StreamChunk (String c content) rest)
  = String c content :: fragments rest.
Proof. reflexivity. Qed.

(** The [i]-th value yielded by the loop is the accumulator followed by
    the first [i+1] non-empty contents. *)
Lemma consume_snapshots s : ∀ acc,
  length (yields (consume acc s)) = length (fragments s)
  ∧ ∀ i, i < length (fragments s) →
      yields (consume acc s) !! i
      = Some (acc +:+ joined (take (S i) (fragments s))).
Proof.
  stream_induction s IH.
  - split; [done | simpl; lia].
  - change (fragments (StreamChunk "" rest)) with (fragments rest). apply IH.
  - rewrite yields_emit_then, fragments_chunk.
    match goal with
    | |- context [consume ?a rest] => destruct (IH a) as [Hlen Hnth]
    end.
    split; [simpl; by rewrite Hlen |].
    intros [|i] Hi; simpl.
    + unfold joined. simpl. by rewrite append_empty_r.
    + rewrite Hnth by (simpl in Hi; lia). unfold joined. simpl.
      by rewrite append_assoc.
  - split; [done | simpl; lia].
Qed.

Lemma consume_outcome s : ∀ acc,
  outcome (consume acc s)
  = match stream_failure s with Some e => Raised e | None => Ok tt end.
Proof.
  stream_induction s IH; [done | apply IH | | done].
  apply IH.
Qed.

Lemma consume_calls_nothing s : ∀ acc, service_calls (consume acc s) = [].
Proof.
  stream_induction s IH; [done | apply IH | | done].
  apply IH.
Qed.

Lemma try_except_calls (body : M unit) msg :
  service_calls (try_except body (λ e, emit (Yield (msg e))))
  = service_calls body.
Proof.
  unfold try_except. destruct (outcome body) as [a|e|]; try done.
  destruct (is_Exception e); [| done].
  unfold service_calls. simpl. by rewrite omap_app, app_nil_r.
Qed.

Ltac call_fails E :=
  rewrite bind_call_raises; cbn [until_raise call_raises]; rewrite ?E;
  split; [by eexists | split; [simpl; discriminate | reflexivity]].

Ltac call_passes E :=
  rewrite bind_call_returns; cbn [until_raise call_raises]; rewrite ?E;
  cbn [until_raise call_raises].

Lemma try_body_calls env api_key selected kwargs prompt :
  render_prompt selected kwargs = Run [] (Ok prompt) →
  let body := try_body env api_key selected kwargs in
  service_calls body `prefix_of` request_calls api_key prompt
  ∧ (outcome body = Ok tt → service_calls body = request_calls api_key prompt)
  ∧ service_calls body = until_raise (service env) (request_calls api_key prompt).
Proof.
  intros Hrender body. subst body. unfold try_body, request_calls.
  rewrite Hrender.
  destruct (client_new (service env) api_key 300) as [e|] eqn:E1;
    [call_fails E1 | call_passes E1]. rewrite bind_pure.
  destruct (chat_create (service env) "grok-4-1-fast-reasoning"
              ["web_search"; "x_search"]) as [e|] eqn:E2;
    [call_fails E2 | call_passes E2].
  destruct (chat_append (service env) System system_instruction) as [e|] eqn:E3;
    [call_fails E3 | call_passes E3].
  destruct (chat_append (service env) User prompt) as [e|] eqn:E4;
    [call_fails E4 | call_passes E4].
  change (service_calls _) with
    ([ClientNew api_key 300;
      ChatCreate "grok-4-1-fast-reasoning" ["web_search"; "x_search"];
      ChatAppend System system_instruction;
      ChatAppend User prompt;
      ChatStream [(System, system_instruction); (User, prompt)]]
     ++ service_calls (consume "" (chat_stream (service env)
                         [(System, system_instruction); (User, prompt)]))).
  rewrite consume_calls_nothing, app_nil_r. split; [by exists [] | done].
Qed.

Lemma try_body_calls_unrendered env api_key selected kwargs :
  (∀ prompt, outcome (render_prompt selected kwargs) ≠ Ok prompt) →
  service_calls (try_body env api_key selected kwargs) = [ClientNew api_key 300].
Proof.
  intros Hrender. unfold try_body.
  pose proof (render_prompt_trace selected kwargs) as Htrace.
  destruct (render_prompt selected kwargs) as [tr [prompt|e|]];
    simpl in Htrace; subst tr.
  - by destruct (Hrender prompt).
  - by destruct (client_new (service env) api_key 300).
  - by destruct (client_new (service env) api_key 300).
Qed.

(** X6: a run that passes both guards makes the calls of one request, in
    order and each at most once: the client with the key and a timeout of
    300, the chat with the fixed model and the two search tools, the
    system instruction, the rendered prompt, the stream.  Its calls are
    exactly those up to and including the first one that raises, all five
    when none does; when the template does not render it goes no further
    than the client. *)
Theorem one_request_per_run env ANALYSES analysis_name
    stock sector capfocus risk_level api_key selected :
  xai_api_key env = Some api_key → api_key ≠ "" →
  outcome (find_selected ANALYSES analysis_name) = Ok (Some selected) →
  let kwargs := format_params env stock sector capfocus risk_level in
  let run := perform_analysis env ANALYSES analysis_name stock sector capfocus risk_level in
  match outcome (render_prompt selected kwargs) with
  | Ok prompt =>
      service_calls run `prefix_of` request_calls api_key prompt
      ∧ (outcome (try_body env api_key selected kwargs) = Ok tt →
         service_calls run = request_calls api_key prompt)
      ∧ service_calls run
        = until_raise (service env) (request_calls api_key prompt)
  | _ => service_calls run = [ClientNew api_key 300]
  end.
Proof.
  intros Hkey Hne Hsel kwargs run. subst kwargs run.
  rewrite (perform_analysis_selected _ _ _ _ _ _ _ _ _ Hkey Hne Hsel).
  rewrite try_except_calls.
  pose proof (render_prompt_trace selected
                (format_params env stock sector capfocus risk_level)) as Htrace.
  destruct (outcome (render_prompt selected
              (format_params env stock sector capfocus risk_level)))
    as [prompt|e|] eqn:Hrender.
  - apply try_body_calls.
    destruct (render_prompt selected _) as [tr o]. simpl in *. by subst.
  - apply try_body_calls_unrendered. intros prompt. by rewrite Hrender.
  - apply try_body_calls_unrendered. intros prompt. by rewrite Hrender.
Qed.

Lemma one_request_witness :
  service_calls (perform_analysis (Scenario.configured Scenario.three_chunks)
                   Final.ANALYSES (Some "Real-Time stock sentiment")
                   (Some "tsla") None None None)
  = request_calls "xai-test-key"
      ("Search X (Twitter) for the latest discussions about TSLA and analyze "
       +:+ "the sentiment. Focus on actionable insights, not noise.")
  ∧ service_calls (perform_analysis Cases.no_chat
                     Final.ANALYSES (Some "Real-Time stock sentiment")
                     (Some "tsla") None None None)
    = [ClientNew "xai-test-key" 300;
       ChatCreate "grok-4-1-fast-reasoning" ["web_search"; "x_search"]].
Proof.
  split.
  - pose proof (one_request_per_run (Scenario.configured Scenario.three_chunks)
                  Final.ANALYSES (Some "Real-Time stock sentiment")
                  (Some "tsla") None None None "xai-test-key"
                  (default ∅ (Final.ANALYSES !! 0%nat))
                  eq_refl ltac:(discriminate) eq_refl) as Hcalls.
    cbv zeta in Hcalls.
    change (outcome (render_prompt _ _)) with
      (@Ok string ("Search X (Twitter) for the latest discussions about TSLA and analyze "
         +:+ "the sentiment. Focus on actionable insights, not noise.")) in Hcalls.
    destruct Hcalls as (_ & Hall & _). apply Hall. reflexivity.
  - pose proof (one_request_per_run Cases.no_chat
                  Final.ANALYSES (Some "Real-Time stock sentiment")
                  (Some "tsla") None None None "xai-test-key"
                  (default ∅ (Final.ANALYSES !! 0%nat))
                  eq_refl ltac:(discriminate) eq_refl) as Hcalls.
    cbv zeta in Hcalls.
    change (outcome (render_prompt _ _)) with
      (@Ok string ("Search X (Twitter) for the latest discussions about TSLA and analyze "
         +:+ "the sentiment. Focus on actionable insights, not noise.")) in Hcalls.
    destruct Hcalls as (_ & _ & Hexact). rewrite Hexact. reflexivity.
Defined.

Lemma markup_errors_are_exceptions tpl : ∀ st e,
  MError e ∈ markup st tpl → is_Exception e = true.
Proof.
  induction tpl as [|c rest IH]; intros st e.
  - destruct st; simpl; rewrite ?elem_of_cons, ?elem_of_nil;
      intros Hin; try done; by destruct Hin as [[= ->] | []].
  - destruct st as [| | |name]; simpl;
      repeat (destruct (bool_decide _); simpl);
      rewrite ?elem_of_cons, ?elem_of_nil;
      intros Hin; try (by apply (IH _ _ Hin));
      try (destruct Hin as [Hin | Hin]); try (by apply (IH _ _ Hin));
      try done; try (by injection Hin as ->).
    all: unfold close_field in Hin; destruct name; try done;
      by destruct (all_digits _).
Qed.

Lemma render_raises_exception items kwargs e :
  (∀ e', MError e' ∈ items → is_Exception e' = true) →
  render items kwargs = Raise e → is_Exception e = true.
Proof.
  induction items as [|m items IH]; [done |]. intros Hitems.
  assert (∀ e', MError e' ∈ items → is_Exception e' = true) as Hrest
    by (intros e' He'; apply Hitems; by apply list_elem_of_further).
  destruct m as [c|name|e0|]; simpl.
  - destruct (render items kwargs); try done. intros [= <-]. by apply IH.
  - destruct name as [|c name]; [by intros [= <-] |].
    destruct (kwargs !! String c name); [| by intros [= <-]].
    destruct (render items kwargs); try done. intros [= <-]. by apply IH.
  - intros [= <-]. apply Hitems, list_elem_of_here.
  - done.
Qed.

Lemma render_prompt_raises_exception selected kwargs e :
  outcome (render_prompt selected kwargs) = Raised e → is_Exception e = true.
Proof.
  unfold render_prompt.
  destruct (selected !! "prompt_template") as [[tpl| |]|]; simpl;
    try (by intros [= <-]).
  destruct (format tpl kwargs) as [p|e0|] eqn:Hfmt; simpl; try done.
  intros [= <-]. apply (render_raises_exception _ _ _ (markup_errors_are_exceptions tpl InLiteral) Hfmt).
Qed.

Ltac raised_by_call H :=
  rewrite bind_call_raises; simpl; eapply H; eassumption.

(** How the body of the [try] can end when the SDK raises nothing but
    [Exception]s. *)
Lemma try_body_endings env api_key selected kwargs :
  only_exceptions (service env) →
  match outcome (try_body env api_key selected kwargs) with
  | Ok _ => True
  | Raised e => is_Exception e = true
  | Beyond => outcome (render_prompt selected kwargs) = Beyond
  end.
Proof.
  intros (Hclient & Hcreate & Happend & Hstream). unfold try_body.
  destruct (client_new (service env) api_key 300) as [e|] eqn:E1;
    [raised_by_call Hclient | rewrite bind_call_returns].
  pose proof (render_prompt_trace selected kwargs) as Htrace.
  pose proof (render_prompt_raises_exception selected kwargs) as Hraise.
  destruct (render_prompt selected kwargs) as [tr [prompt|e|]];
    simpl in Htrace, Hraise; subst tr; [| by apply Hraise | done].
  rewrite bind_pure.
  destruct (chat_create (service env) "grok-4-1-fast-reasoning"
              ["web_search"; "x_search"]) as [e|] eqn:E2;
    [raised_by_call Hcreate | rewrite bind_call_returns].
  destruct (chat_append (service env) System system_instruction) as [e|] eqn:E3;
    [raised_by_call Happend | rewrite bind_call_returns].
  destruct (chat_append (service env) User prompt) as [e|] eqn:E4;
    [raised_by_call Happend | rewrite bind_call_returns].
  simpl. rewrite consume_outcome.
  destruct (stream_failure _) as [e|] eqn:E5; [| done].
  by apply (Hstream _ _ E5).
Qed.

Lemma find_selected_returns ANALYSES analysis_name :
  well_named ANALYSES = true →
  ∃ r, find_selected ANALYSES analysis_name = Run [] (Ok r).
Proof.
  induction ANALYSES as [|a rest IH]; simpl; [by eexists |].
  intros [Ha Hrest]%andb_prop. apply bool_decide_eq_true in Ha as [v ->].
  destruct (eq_str v analysis_name); [by eexists | by apply IH].
Qed.

Lemma catalog_entry_in_fragment ANALYSES a kwargs :
  ANALYSES ∈ catalogs → a ∈ ANALYSES →
  outcome (render_prompt a kwargs) ≠ Beyond.
Proof.
  intros Hcat Ha.
  pose proof (CatalogFacts.forallb_elem_of _ _ _
                (CatalogFacts.catalogs_templates_ok _ Hcat) Ha) as Hok.
  unfold entry_template_ok in Hok. unfold render_prompt.
  destruct (a !! "prompt_template") as [[tpl| |]|]; try done.
  apply andb_prop in Hok as [_ Hfrag].
  destruct (format tpl kwargs) eqn:Hfmt; try done.
  apply CatalogFacts.render_unmodelled in Hfmt. by rewrite Hfmt in Hfrag.
Qed.

(** X7: over each of the four catalogs, when everything the SDK raises
    derives from [Exception], no run lets an exception out: whatever the
    key, the selection, the inputs and the service do, the generator is
    exhausted normally. *)
Theorem perform_analysis_never_raises env ANALYSES analysis_name
    stock sector capfocus risk_level :
  ANALYSES ∈ catalogs → only_exceptions (service env) →
  outcome (perform_analysis env ANALYSES analysis_name
             stock sector capfocus risk_level) = Ok tt.
Proof.
  intros Hcat Honly.
  destruct (xai_api_key env) as [[|c k]|] eqn:Hkey;
    try (unfold perform_analysis; by rewrite Hkey).
  destruct (find_selected_returns ANALYSES analysis_name
              (catalogs_well_named _ Hcat)) as [[a|] Hfind].
  2:{ unfold perform_analysis. by rewrite Hkey, Hfind. }
  assert (outcome (find_selected ANALYSES analysis_name) = Ok (Some a)) as Hsel
    by (by rewrite Hfind).
  rewrite (perform_analysis_selected env ANALYSES analysis_name
             stock sector capfocus risk_level (String c k) a Hkey
             ltac:(discriminate) Hsel).
  pose proof (try_body_endings env (String c k) a
                (format_params env stock sector capfocus risk_level) Honly) as Hend.
  pose proof (LookupFacts.find_selected_sound _ _ _ Hsel) as [Ha _].
  destruct (outcome (try_body env (String c k) a _)) as [[]|e|] eqn:Hbody.
  - by rewrite (try_except_returns _ _ _ Hbody).
  - by rewrite (try_except_handles _ _ _ Hbody Hend).
  - by destruct (catalog_entry_in_fragment ANALYSES a _ Hcat Ha Hend).
Qed.

Lemma never_raises_witness :
  outcome (perform_analysis (Scenario.configured Scenario.broken_stream)
             Market.ANALYSES (Some "Future Price Path Simulation")
             (Some "tsla") None None None) = Ok tt.
Proof.
  apply perform_analysis_never_raises.
  - unfold catalogs. do 2 apply list_elem_of_further. apply list_elem_of_here.
  - repeat split; try discriminate.
    intros messages e. simpl. by intros [= <-].
Defined.

(** X8: in a run whose [try] body ends normally there is one yield per
    non-empty content of the stream, the [i]-th yield is the first [i+1]
    of them joined, and so the last yield is the whole text; a stream of
    empty contents yields nothing. *)
Theorem yields_are_joined_fragments env ANALYSES analysis_name
    stock sector capfocus risk_level api_key selected :
  xai_api_key env = Some api_key → api_key ≠ "" →
  outcome (find_selected ANALYSES analysis_name) = Ok (Some selected) →
  outcome (try_body env api_key selected
             (format_params env stock sector capfocus risk_level)) = Ok tt →
  let run := perform_analysis env ANALYSES analysis_name stock sector capfocus risk_level in
  ∃ prompt,
    render_prompt selected (format_params env stock sector capfocus risk_level)
    = Run [] (Ok prompt)
    ∧ let parts := fragments (chat_stream (service env)
                                [(System, system_instruction); (User, prompt)]) in
      length (yields run) = length parts
      ∧ (∀ i, i < length parts →
           yields run !! i = Some (joined (take (S i) parts)))
      ∧ last (yields run) = match parts with
                            | [] => None
                            | _ => Some (joined parts)
                            end.
Proof.
  intros Hkey Hne Hsel Hok run. subst run.
  rewrite (perform_analysis_selected _ _ _ _ _ _ _ _ _ Hkey Hne Hsel).
  rewrite (try_except_returns _ _ _ Hok).
  destruct (try_body_cases env api_key selected
              (format_params env stock sector capfocus risk_level))
    as [(_ & _ & Hstop) | (prompt & Hrender & -> & _ & _)]; [done |].
  exists prompt. split; [done |]. intros parts.
  destruct (consume_snapshots
              (chat_stream (service env) [(System, system_instruction); (User, prompt)])
              "") as [Hlen Hnth].
  fold parts in Hlen, Hnth. split; [done |]. split; [exact Hnth |].
  rewrite last_lookup, Hlen. destruct parts as [|p parts'] eqn:Hparts.
  - apply lookup_ge_None. rewrite Hlen. simpl. lia.
  - rewrite Hnth by (simpl; lia). simpl pred.
    by rewrite <- (length_cons p parts'), firstn_all.
Qed.

Lemma yields_joined_witness :
  last (yields (perform_analysis (Scenario.configured Scenario.three_chunks)
                  Final.ANALYSES (Some "Real-Time stock sentiment")
                  (Some "tsla") None None None))
  = Some "# TSLA sentiment".
Proof.
  destruct (yields_are_joined_fragments
              (Scenario.configured Scenario.three_chunks) Final.ANALYSES
              (Some "Real-Time stock sentiment") (Some "tsla") None None None
              "xai-test-key" (default ∅ (Final.ANALYSES !! 0%nat))
              eq_refl ltac:(discriminate) eq_refl eq_refl)
    as (prompt & _ & _ & _ & Hlast).
  rewrite Hlast. reflexivity.
Defined.

(** X9: a raise that does not derive from [Exception] is not caught: the
    run ends with it, having yielded what the body yielded and nothing
    more, so no error message is added. *)
Theorem non_exception_passes_through env ANALYSES analysis_name
    stock sector capfocus risk_level api_key selected e :
  xai_api_key env = Some api_key → api_key ≠ "" →
  outcome (find_selected ANALYSES analysis_name) = Ok (Some selected) →
  outcome (try_body env api_key selected
             (format_params env stock sector capfocus risk_level)) = Raised e →
  is_Exception e = false →
  let run := perform_analysis env ANALYSES analysis_name stock sector capfocus risk_level in
  outcome run = Raised e
  ∧ trace run = trace (try_body env api_key selected
                         (format_params env stock sector capfocus risk_level)).
Proof.
  intros Hkey Hne Hsel Hraised Hexc run. subst run.
  rewrite (perform_analysis_selected _ _ _ _ _ _ _ _ _ Hkey Hne Hsel).
  unfold try_except. by rewrite Hraised, Hexc.
Qed.

Lemma non_exception_witness :
  outcome (perform_analysis (Scenario.configured Cases.interrupted_stream)
             Final.ANALYSES (Some "Real-Time stock sentiment")
             (Some "tsla") None None None)
  = Raised (Other "KeyboardInterrupt" "" false)
  ∧ yields (perform_analysis (Scenario.configured Cases.interrupted_stream)
              Final.ANALYSES (Some "Real-Time stock sentiment")
              (Some "tsla") None None None)
    = ["# TSLA"].
Proof.
  destruct (non_exception_passes_through
              (Scenario.configured Cases.interrupted_stream) Final.ANALYSES
              (Some "Real-Time stock sentiment") (Some "tsla") None None None
              "xai-test-key" (default ∅ (Final.ANALYSES !! 0%nat))
              (Other "KeyboardInterrupt" "" false)
              eq_refl ltac:(discriminate) eq_refl eq_refl eq_refl)
    as [Hout Htrace].
  split; [exact Hout |]. unfold yields. rewrite Htrace. reflexivity.
Defined.

End RunFacts.

Module PromptFacts.
Import Py Format Dispatcher Check Observe.
Import DispatcherFacts.

Lemma format_params_has_keys env stock sector capfocus risk_level key :
  key ∈ fixed_keys →
  is_Some (format_params env stock sector capfocus risk_level !! key).
Proof.
  unfold fixed_keys. rewrite !elem_of_cons, elem_of_nil.
  intros [-> | [-> | [-> | [-> | []]]]]; by eexists.
Qed.

Lemma items_render items (kwargs : gmap string string) :
  forallb (λ m, match m with
                | MLit _ => true
                | MField name => bool_decide (name ∈ fixed_keys)
                | _ => false
                end) items = true →
  (∀ key, key ∈ fixed_keys → is_Some (kwargs !! key)) →
  ∃ out, render items kwargs = Rendered out.
Proof.
  intros Hitems Hkeys. induction items as [|m items IH]; [by eexists |].
  simpl in Hitems. apply andb_prop in Hitems as [Hm Hrest].
  destruct (IH Hrest) as [out Hout].
  destruct m as [c|name|e|]; simpl; try done.
  - rewrite Hout. by eexists.
  - apply bool_decide_eq_true in Hm. destruct (Hkeys name Hm) as [v Hv].
    destruct name as [|c name].
    + exfalso. revert Hm. unfold fixed_keys.
      rewrite !elem_of_cons, elem_of_nil.
      by intros [? | [? | [? | [? | []]]]].
    + rewrite Hv, Hout. by eexists.
Qed.

Lemma catalogs_render ANALYSES :
  ANALYSES ∈ catalogs →
  forallb (λ a, entry_renders a
                || bool_decide (name_of a = Some "Future Price Path Simulation"))
    ANALYSES = true
  ∧ (ANALYSES ≠ Market.ANALYSES → forallb entry_renders ANALYSES = true).
Proof.
  unfold catalogs. rewrite !elem_of_cons, elem_of_nil.
  intros [-> | [-> | [-> | [-> | []]]]]; (split; [by vm_compute |]);
    intros Hne; try done; by vm_compute.
Qed.

(** X10: every template of the four catalogs renders, whatever the four
    inputs are, except the one of "Future Price Path Simulation" in
    [stock_and_market_research.py]. *)
Theorem catalog_prompts_render env ANALYSES a stock sector capfocus risk_level :
  ANALYSES ∈ catalogs → a ∈ ANALYSES →
  ¬ (ANALYSES = Market.ANALYSES
     ∧ name_of a = Some "Future Price Path Simulation") →
  ∃ prompt,
    render_prompt a (format_params env stock sector capfocus risk_level)
    = Run [] (Ok prompt).
Proof.
  intros Hcat Ha Hnot.
  destruct (catalogs_render _ Hcat) as [Hmost Hall].
  assert (entry_renders a = true) as Hok.
  { pose proof (CatalogFacts.forallb_elem_of _ _ _ Hmost Ha) as Hor.
    simpl in Hor. apply orb_prop in Hor as [Hok | Hname%bool_decide_eq_true];
      [done |].
    apply (CatalogFacts.forallb_elem_of _ _ _ (Hall ltac:(naive_solver)) Ha). }
  unfold entry_renders in Hok. unfold render_prompt.
  destruct (a !! "prompt_template") as [[tpl| |]|]; try done.
  destruct (items_render _ (format_params env stock sector capfocus risk_level) Hok)
    as [out Hout]; [apply format_params_has_keys |].
  unfold format. rewrite Hout. by exists out.
Qed.

Lemma catalog_prompts_witness :
  ∃ prompt,
    render_prompt (default ∅ (ResearchEngine.ANALYSES !! 19%nat))
      (format_params (Scenario.configured Scenario.three_chunks)
         (Some "nvda") None None None)
    = Run [] (Ok prompt).
Proof.
  apply (catalog_prompts_render (Scenario.configured Scenario.three_chunks)
           ResearchEngine.ANALYSES).
  - unfold catalogs. do 3 apply list_elem_of_further. apply list_elem_of_here.
  - apply (list_elem_of_lookup_2 _ 19). reflexivity.
  - intros [Heq _]. by vm_compute in Heq.
Defined.

(** X11: in [stock_and_market_research.py] the analysis "Future Price
    Path Simulation" can never be run: once the client is created, every
    run, whatever the inputs, is the client call followed by the single
    error message of the stray brace, and no chat is created. *)
Theorem stray_brace_always_fails env stock sector capfocus risk_level api_key :
  xai_api_key env = Some api_key → api_key ≠ "" →
  client_new (service env) api_key 300 = None →
  perform_analysis env Market.ANALYSES (Some "Future Price Path Simulation")
    stock sector capfocus risk_level
  = Run [ClientNew api_key 300;
         Yield (error_message env
                  (ValueError "Single '}' encountered in format string"))]
        (Ok tt).
Proof.
  intros Hkey Hne Hclient.
  rewrite (perform_analysis_selected env Market.ANALYSES
             (Some "Future Price Path Simulation")
             stock sector capfocus risk_level api_key
             (default ∅ (Market.ANALYSES !! 19%nat)) Hkey Hne
             ltac:(by vm_compute)).
  assert (render_prompt (default ∅ (Market.ANALYSES !! 19%nat))
            (format_params env stock sector capfocus risk_level)
          = Run [] (Raised (ValueError "Single '}' encountered in format string")))
    as Hrender by (by vm_compute).
  unfold try_body. rewrite Hclient, bind_call_returns, Hrender. reflexivity.
Qed.

Lemma stray_brace_witness :
  yields (perform_analysis (Scenario.configured Scenario.three_chunks)
            Market.ANALYSES (Some "Future Price Path Simulation")
            (Some "tsla") None None None)
  = [error_message (Scenario.configured Scenario.three_chunks)
       (ValueError "Single '}' encountered in format string")].
Proof.
  rewrite (stray_brace_always_fails (Scenario.configured Scenario.three_chunks)
             (Some "tsla") None None None "xai-test-key" eq_refl
             ltac:(discriminate) eq_refl).
  reflexivity.
Defined.

Lemma render_agrees items (kwargs kwargs' : gmap string string) :
  (∀ p, p ∈ fields items → kwargs !! p = kwargs' !! p) →
  render items kwargs = render items kwargs'.
Proof.
  induction items as [|m items IH]; [done |]. intros Hagree.
  destruct m as [c|name|e|]; simpl in *; try done.
  - by rewrite IH.
  - destruct name as [|c name]; [done |].
    rewrite <- (Hagree (String c name)) by apply list_elem_of_here.
    rewrite IH; [done |]. intros p Hp. by apply Hagree, list_elem_of_further.
Qed.

(** X12: inputs the selected template does not name have no effect: two
    calls whose substitution maps agree on the placeholders of the
    template are the same run, with the same prompt, yields and calls. *)
Theorem unnamed_inputs_are_ignored env ANALYSES analysis_name api_key selected tpl
    stock sector capfocus risk_level stock' sector' capfocus' risk_level' :
  xai_api_key env = Some api_key → api_key ≠ "" →
  outcome (find_selected ANALYSES analysis_name) = Ok (Some selected) →
  selected !! "prompt_template" = Some (VStr tpl) →
  (∀ p, p ∈ placeholders tpl →
     format_params env stock sector capfocus risk_level !! p
     = format_params env stock' sector' capfocus' risk_level' !! p) →
  perform_analysis env ANALYSES analysis_name stock sector capfocus risk_level
  = perform_analysis env ANALYSES analysis_name stock' sector' capfocus' risk_level'.
Proof.
  intros Hkey Hne Hsel Htpl Hagree.
  rewrite !(perform_analysis_selected _ _ _ _ _ _ _ _ _ Hkey Hne Hsel).
  unfold try_body, render_prompt. rewrite Htpl. unfold format.
  by rewrite (render_agrees _ _ _ Hagree).
Qed.

Lemma unnamed_inputs_witness :
  perform_analysis (Scenario.configured Scenario.three_chunks) Market.ANALYSES
    (Some "Bear-to-Bull Flip Alert") None (Some "Energy") None (Some "high")
  = perform_analysis (Scenario.configured Scenario.three_chunks) Market.ANALYSES
      (Some "Bear-to-Bull Flip Alert") None (Some "Utilities") None (Some "low").
Proof.
  eapply (unnamed_inputs_are_ignored (Scenario.configured Scenario.three_chunks)
            Market.ANALYSES (Some "Bear-to-Bull Flip Alert") "xai-test-key"
            (default ∅ (Market.ANALYSES !! 5%nat))).
  - reflexivity.
  - discriminate.
  - reflexivity.
  - reflexivity.
  - intros p Hp. vm_compute in Hp. by apply elem_of_nil in Hp.
Defined.

Lemma contains_here (v s : string) : contains v (v +:+ s).
Proof. by exists "", s. Qed.

Lemma contains_after (v w s : string) : contains v s → contains v (w +:+ s).
Proof.
  intros (pre & post & ->). exists (w +:+ pre), post. by rewrite append_assoc.
Qed.

Lemma render_contains items (kwargs : gmap string string) out p v :
  render items kwargs = Rendered out →
  p ∈ fields items → kwargs !! p = Some v → contains v out.
Proof.
  revert out. induction items as [|m items IH]; intros out Hout Hp Hv.
  - by apply elem_of_nil in Hp.
  - destruct m as [c|name|e|]; simpl in *; try done.
    + destruct (render items kwargs) as [s| |]; try done.
      injection Hout as <-.
      apply (contains_after v (String c "") s). by apply IH.
    + destruct name as [|c name]; [done |].
      destruct (kwargs !! String c name) as [w|] eqn:Hw; [| done].
      destruct (render items kwargs) as [s| |]; try done.
      injection Hout as <-.
      apply elem_of_cons in Hp as [-> | Hp].
      * rewrite Hv in Hw. injection Hw as <-. apply contains_here.
      * apply contains_after. by apply IH.
Qed.

(** X13: a rendered prompt contains the value of every placeholder its
    template names: the ticker as [str.upper] returns it, or [N/A], for
    [{stock}], the given text or the fallback for the others. *)
Theorem prompt_contains_values env selected tpl prompt p v
    stock sector capfocus risk_level :
  selected !! "prompt_template" = Some (VStr tpl) →
  render_prompt selected (format_params env stock sector capfocus risk_level)
  = Run [] (Ok prompt) →
  p ∈ placeholders tpl →
  format_params env stock sector capfocus risk_level !! p = Some v →
  contains v prompt.
Proof.
  intros Htpl Hrender Hp Hv. unfold render_prompt in Hrender.
  rewrite Htpl in Hrender. unfold format in Hrender.
  destruct (render (markup InLiteral tpl) _) as [out| |] eqn:Hout; try done.
  injection Hrender as <-. by apply (render_contains _ _ _ p v Hout).
Qed.

Lemma prompt_contains_witness :
  ∃ prompt,
    render_prompt (default ∅ (Final.ANALYSES !! 7%nat))
      (format_params (Scenario.configured Scenario.three_chunks)
         None (Some "Energy") None None) = Run [] (Ok prompt)
    ∧ contains "medium" prompt.
Proof.
  eexists. split; [by vm_compute |].
  eapply (prompt_contains_values (Scenario.configured Scenario.three_chunks)
            (default ∅ (Final.ANALYSES !! 7%nat)) _ _
            "risk" "medium" None (Some "Energy") None None).
  - reflexivity.
  - by vm_compute.
  - vm_compute. do 2 apply list_elem_of_further. apply list_elem_of_here.
  - reflexivity.
Defined.

(** X14: tickers that [str.upper] maps to the same text give the same
    run, so the case of the ticker does not matter; and an empty input is
    the same as a missing one, for each of the four inputs. *)
Theorem ticker_case_and_blanks env ANALYSES analysis_name
    stock sector capfocus risk_level :
  let run := perform_analysis env ANALYSES analysis_name in
  (∀ s s', s ≠ "" → s' ≠ "" → str_upper env s = str_upper env s' →
     run (Some s) sector capfocus risk_level
     = run (Some s') sector capfocus risk_level)
  ∧ run (Some "") sector capfocus risk_level = run None sector capfocus risk_level
  ∧ run stock (Some "") capfocus risk_level = run stock None capfocus risk_level
  ∧ run stock sector (Some "") risk_level = run stock sector None risk_level
  ∧ run stock sector capfocus (Some "") = run stock sector capfocus None.
Proof.
  intros run. subst run. split; [| by repeat split].
  intros s s' Hs Hs' Hupper. unfold perform_analysis.
  assert (format_params env (Some s) sector capfocus risk_level
          = format_params env (Some s') sector capfocus risk_level) as ->; [| done].
  destruct s as [|c s], s' as [|c' s']; try done.
  unfold format_params. by rewrite Hupper.
Qed.

Lemma ticker_case_witness :
  perform_analysis (Scenario.configured Scenario.three_chunks) Final.ANALYSES
    (Some "Real-Time stock sentiment") (Some "tsla") None None None
  = perform_analysis (Scenario.configured Scenario.three_chunks) Final.ANALYSES
      (Some "Real-Time stock sentiment") (Some "Tsla") None None None.
Proof.
  apply (ticker_case_and_blanks (Scenario.configured Scenario.three_chunks)
           Final.ANALYSES (Some "Real-Time stock sentiment") None None None None);
    [discriminate | discriminate | reflexivity].
Defined.

End PromptFacts.

Module DrawingFacts.
Import Py Vision Observe.

Lemma plot_line_reads plot line sg :
  reads_as line sg → plot sg = None → plot_line plot line = Ok sg.
Proof.
  intros (fields & -> & Hx1 & Hx2 & Hy1 & Hy2) Hplot. unfold plot_line. simpl.
  rewrite Hx1. simpl. rewrite Hx2. simpl. rewrite Hy1. simpl. rewrite Hy2. simpl.
  destruct sg. simpl. by rewrite Hplot.
Qed.

Lemma plot_lines_read plot lines sgs :
  Forall2 reads_as lines sgs → Forall (λ sg, plot sg = None) sgs →
  for_each (plot_line plot) lines = Ok sgs.
Proof.
  induction 1 as [|line sg lines sgs Hline _ IH]; [done |].
  intros [Hsg Hsgs]%Forall_cons. simpl.
  by rewrite (plot_line_reads plot line sg Hline Hsg), (IH Hsgs).
Qed.

Lemma draw_pattern_carries plot pattern sgs :
  carries pattern sgs → Forall (λ sg, plot sg = None) sgs →
  draw_pattern plot pattern = Ok sgs.
Proof.
  intros (fields & lines & -> & Hlines & Hall) Hplot. unfold draw_pattern. simpl.
  rewrite Hlines. simpl. by apply plot_lines_read.
Qed.

Lemma draw_patterns_carry plot patterns drawn :
  Forall2 carries patterns drawn →
  Forall (λ sg, plot sg = None) (concat drawn) →
  for_each (draw_pattern plot) patterns = Ok drawn.
Proof.
  induction 1 as [|pattern sgs patterns drawn Hpattern _ IH]; [done |].
  simpl. intros [Hsgs Hrest]%Forall_app.
  by rewrite (draw_pattern_carries plot pattern sgs Hpattern Hsgs), (IH Hrest).
Qed.

Lemma for_each_raises {A B} (f : A → Outcome B) xs x ys bs e :
  for_each f xs = Ok bs → f x = Raised e →
  for_each f (xs ++ x :: ys) = Raised e.
Proof.
  revert bs. induction xs as [|x0 xs IH]; intros bs; simpl.
  - by intros _ ->.
  - destruct (f x0) as [b| |]; simpl; try done.
    destruct (for_each f xs) as [bs'| |]; simpl; try done.
    intros _ Hx. by rewrite (IH bs' eq_refl Hx).
Qed.

(** X15: when each pattern of an object reply has a [trendlines] list of
    objects with the four coordinates, and [ax.plot] accepts each of these
    segments, the classifier returns the analysis text (or the fallback)
    and the chart with exactly those segments, pattern by pattern and line
    by line in the order of the reply; other fields of a pattern or a line
    play no part. *)
Theorem drawn_segments_follow_reply {Image} (env : Env Image) img content
    fields patterns drawn :
  completions_create env img = inr (Some content) →
  json_loads env content = inr (JObj fields) →
  fields !! "patterns" = Some (JArr patterns) →
  Forall2 carries patterns drawn →
  Forall (λ sg, ax_plot env sg = None) (concat drawn) →
  process_image env (Some img)
  = Ok (default (JStr "No analysis returned.") (fields !! "analysis"),
        {| chart := img; segments := concat drawn |}).
Proof.
  intros Hreply Hparse Hpatterns Hall Hplot.
  rewrite (VisionFacts.process_image_parsed env img content Hreply fields Hparse).
  unfold draw_annotations. simpl. rewrite Hpatterns. simpl.
  by rewrite (draw_patterns_carry (ax_plot env) patterns drawn Hall Hplot).
Qed.

Lemma drawn_segments_witness :
  process_image (Cases.decoded (JObj Cases.two_wedges)) (Some tt)
  = Ok (JStr "Two wedges.",
        {| chart := tt;
           segments := [Cases.wedge_segment; Cases.wedge_segment] |}).
Proof.
  assert (carries Cases.wedge_pattern [Cases.wedge_segment]) as Hwedge.
  { do 2 eexists. split; [reflexivity |]. split; [reflexivity |].
    constructor; [| constructor].
    eexists. split; [reflexivity |]. by repeat split. }
  rewrite (drawn_segments_follow_reply (Cases.decoded (JObj Cases.two_wedges))
             tt "(reply)" Cases.two_wedges
             [Cases.wedge_pattern; Cases.wedge_pattern]
             [[Cases.wedge_segment]; [Cases.wedge_segment]]
             eq_refl eq_refl eq_refl).
  - reflexivity.
  - by repeat constructor.
  - by repeat constructor.
Defined.

(** X16: one pattern that cannot be drawn loses the whole result: when
    the patterns before it draw and it raises (a line without a
    coordinate, a coordinate [ax.plot] rejects), [process_image] raises
    the same exception, and neither the analysis text nor the segments
    already plotted are returned. *)
Theorem undrawable_pattern_loses_result {Image} (env : Env Image) img content
    fields before bad after drawn e :
  completions_create env img = inr (Some content) →
  json_loads env content = inr (JObj fields) →
  fields !! "patterns" = Some (JArr (before ++ bad :: after)) →
  for_each (draw_pattern (ax_plot env)) before = Ok drawn →
  draw_pattern (ax_plot env) bad = Raised e →
  process_image env (Some img) = Raised e.
Proof.
  intros Hreply Hparse Hpatterns Hbefore Hbad.
  rewrite (VisionFacts.process_image_parsed env img content Hreply fields Hparse).
  unfold draw_annotations. simpl. rewrite Hpatterns. simpl.
  by rewrite (for_each_raises (draw_pattern (ax_plot env)) before bad after
                drawn e Hbefore Hbad).
Qed.

Lemma undrawable_pattern_witness :
  process_image (Cases.decoded (JObj Cases.wedge_then_clipped)) (Some tt)
  = Raised (KeyError "y2")
  ∧ process_image (Cases.decoded (JObj Cases.wedge_then_nested)) (Some tt)
    = Raised (ValueError "setting an array element with a sequence.").
Proof.
  split.
  - apply (undrawable_pattern_loses_result
             (Cases.decoded (JObj Cases.wedge_then_clipped))
             tt "(reply)" Cases.wedge_then_clipped
             [Cases.wedge_pattern] Cases.clipped_pattern []
             [[Cases.wedge_segment]]); reflexivity.
  - apply (undrawable_pattern_loses_result
             (Cases.decoded (JObj Cases.wedge_then_nested))
             tt "(reply)" Cases.wedge_then_nested
             [Cases.wedge_pattern] Cases.nested_pattern []
             [[Cases.wedge_segment]]); reflexivity.
Defined.

(** X17: a reply that decodes to anything but a JSON object (a list, a
    string, a number, a boolean, [null]) never gives a result: every path
    through [process_image] ends in a [TypeError] or an
    [AttributeError]. *)
Theorem non_object_reply_raises {Image} (env : Env Image) img content v :
  completions_create env img = inr (Some content) →
  json_loads env content = inr v →
  is_object v = false →
  ∃ msg, process_image env (Some img) = Raised (TypeError msg)
         ∨ process_image env (Some img) = Raised (AttributeError msg).
Proof.
  intros Hreply Hparse Hobj. unfold process_image.
  rewrite (VisionFacts.analyze_parsed env img content Hreply v Hparse).
  destruct v as [| b | z | lit | s | items | fields]; try done; simpl.
  1-4: eexists; by left.
  - destruct (substring_of "patterns" s); simpl; eexists; [by left | by right].
  - destruct (existsb _ items); simpl; eexists; [by left | by right].
Qed.

Lemma non_object_reply_witness :
  ∃ msg, process_image (Cases.decoded (JArr [])) (Some tt) = Raised (TypeError msg)
         ∨ process_image (Cases.decoded (JArr [])) (Some tt)
           = Raised (AttributeError msg).
Proof.
  apply (non_object_reply_raises (Cases.decoded (JArr [])) tt "(reply)" (JArr []));
    reflexivity.
Defined.

End DrawingFacts.
